(** * toranorium: the scene planner, the instance layout and the tower scale

    A shallow embedding of [src/App.tsx]: the mock text-to-plan converter
    [planSceneFromTextMock], the clamp pass of [applyPrompt], the memoised
    instance table and the per-frame callback of [FloatingObjects], and the
    height-fitting scale of [TowerModel].

    Conventions of the embedding.
    - A JavaScript string is a [string]: its characters are read as the
      UTF-16 code units U+0000 .. U+00FF (Basic Latin and Latin-1), on which
      [toLowerCase], [\d] and [\s] are written out in full.
    - A JavaScript number is a [number]: either [NaN] or a rational.  The
      arithmetic is exact (rounding to binary64 is not modelled) and the two
      infinities are not represented; the one operation that could produce
      them, a division by zero, is never evaluated by the code below and is
      mapped to [NaN].
    - [Math.sin], [Math.cos] (implementation-approximated in ECMAScript) and
      the readings of [performance.now()] are inputs of the definitions that
      use them. *)

From Stdlib Require Import String Ascii List ZArith NArith QArith Qround Bool Lia Lqa.
Import ListNotations.

(* ================================================================== *)
(** ** The host language: numbers, strings, regular expressions       *)
(* ================================================================== *)

Module JS.

Open Scope Q_scope.

(** *** Numbers *)

Inductive number : Type :=
| NaN : number
| Num : Q -> number.

(** Numeric equality ([===] on numbers): [NaN] equals nothing. *)
Definition num_eq (a b : number) : Prop :=
  match a, b with
  | Num x, Num y => x == y
  | _, _ => False
  end.

(** [ToBoolean] on a number: [NaN] and zero are falsy. *)
Definition truthy (a : number) : bool :=
  match a with
  | NaN => false
  | Num x => negb (Qeq_bool x 0)
  end.

(** [a || b] on numbers. *)
Definition or_else (a b : number) : number :=
  if truthy a then a else b.

(** [a ?? b]: an absent optional field is [undefined]. *)
Definition nullish {A : Type} (a : option A) (b : A) : A :=
  match a with
  | Some x => x
  | None => b
  end.

Definition Math_min (a b : number) : number :=
  match a, b with
  | Num x, Num y => if Qle_bool x y then Num x else Num y
  | _, _ => NaN
  end.

Definition Math_max (a b : number) : number :=
  match a, b with
  | Num x, Num y => if Qle_bool y x then Num x else Num y
  | _, _ => NaN
  end.

Definition add (a b : number) : number :=
  match a, b with
  | Num x, Num y => Num (x + y)
  | _, _ => NaN
  end.

Definition mul (a b : number) : number :=
  match a, b with
  | Num x, Num y => Num (x * y)
  | _, _ => NaN
  end.

Definition div (a b : number) : number :=
  match a, b with
  | Num x, Num y => if Qeq_bool y 0 then NaN else Num (x / y)
  | _, _ => NaN
  end.

Definition of_Z (z : Z) : number := Num (inject_Z z).
Definition of_nat (n : nat) : number := of_Z (Z.of_nat n).

(** [i % m] for an array index [i] and a positive literal [m]. *)
Definition rem (i m : nat) : number := of_nat (Nat.modulo i m).

(** [Math.PI] is the binary64 number 0x400921FB54442D18, a rational. *)
Definition Math_PI : number := Num (884279719003555 # 281474976710656).

(** [lo <= a <= hi], false on [NaN]. *)
Definition between (lo hi : Q) (a : number) : Prop :=
  match a with
  | NaN => False
  | Num x => lo <= x /\ x <= hi
  end.

Definition is_NaN (a : number) : bool :=
  match a with
  | NaN => true
  | Num _ => false
  end.

(** [ToLength]: truncate, then clamp to [0, 2^53 - 1].  Below zero the
    clamp hides the difference between truncation and [Qfloor]. *)
Definition ToLength (a : number) : Z :=
  match a with
  | NaN => 0%Z
  | Num x => Z.min (Z.max (Qfloor x) 0) (2 ^ 53 - 1)
  end.

(** [Array.from({ length: len }).map((_, i) => f i)].  [Array.from] builds
    its result with [new Array(len)], which throws a [RangeError] above
    2^32 - 1; [None] stands for that exception. *)
Definition Array_from_length_map {A : Type} (len : number) (f : nat -> A)
  : option (list A) :=
  let n := ToLength len in
  if (2 ^ 32 - 1 <? n)%Z then None
  else Some (List.map f (List.seq 0 (Z.to_nat n))).

(** *** Strings *)

Open Scope string_scope.

Definition code (c : ascii) : N := N_of_ascii c.

(** [String.prototype.toLowerCase] on one code unit below U+0100:
    A-Z, and the Latin-1 capitals U+00C0 .. U+00DE except the
    multiplication sign U+00D7, move up by 32. *)
Definition toLowerCase_unit (c : ascii) : ascii :=
  let n := code c in
  if ((65 <=? n) && (n <=? 90))%N then ascii_of_N (n + 32)
  else if ((192 <=? n) && (n <=? 222) && negb (n =? 215))%N
       then ascii_of_N (n + 32)
  else c.

Fixpoint toLowerCase (s : string) : string :=
  match s with
  | EmptyString => EmptyString
  | String c s' => String (toLowerCase_unit c) (toLowerCase s')
  end.

(** [s.startsWith(w)], returning what follows [w]. *)
Fixpoint strip_prefix (w s : string) : option string :=
  match w with
  | EmptyString => Some s
  | String a w' =>
      match s with
      | EmptyString => None
      | String b s' => if Ascii.eqb a b then strip_prefix w' s' else None
      end
  end.

Definition startsWith (w s : string) : bool :=
  match strip_prefix w s with
  | Some _ => true
  | None => false
  end.

(** [s.includes(w)]: [w] starts at some index of [s]. *)
Fixpoint includes (w s : string) : bool :=
  startsWith w s ||
  match s with
  | EmptyString => false
  | String _ s' => includes w s'
  end.

(** The class [\d]. *)
Definition isDigit (c : ascii) : bool :=
  ((48 <=? code c) && (code c <=? 57))%N.

(** The class [\s] below U+0100: TAB, LF, VT, FF, CR, space, NBSP. *)
Definition isSpace (c : ascii) : bool :=
  let n := code c in
  (((9 <=? n) && (n <=? 13)) || (n =? 32) || (n =? 160))%N.

(** *** Regular expressions, as backtracking matchers

    A matcher receives the rest of the input, the current value of capture
    group 1 and a continuation; it answers with the captures of the first
    successful way to match, trying its choices in the priority order of
    ECMAScript ([None] is failure).  The result of a whole match is the
    value of group 1: [None] there is [undefined]. *)

Definition Captures : Type := option string.
Definition Continuation : Type := string -> Captures -> option Captures.
Definition Matcher : Type := string -> Captures -> Continuation -> option Captures.

(** A run of literal characters. *)
Definition m_lit (w : string) : Matcher :=
  fun s cap k =>
    match strip_prefix w s with
    | Some s' => k s' cap
    | None => None
    end.

(** [c*] for a character class, greedy: one more character first, the
    continuation here only when that fails. *)
Fixpoint m_star (p : ascii -> bool) (s : string) (cap : Captures)
  (k : Continuation) : option Captures :=
  match s with
  | String c s' =>
      if p c then
        match m_star p s' cap k with
        | Some r => Some r
        | None => k s cap
        end
      else k s cap
  | EmptyString => k s cap
  end.

(** [c+] for a character class, greedy. *)
Definition m_plus (p : ascii -> bool) : Matcher :=
  fun s cap k =>
    match s with
    | String c s' => if p c then m_star p s' cap k else None
    | EmptyString => None
    end.

Definition m_seq (m1 m2 : Matcher) : Matcher :=
  fun s cap k => m1 s cap (fun s' cap' => m2 s' cap' k).

(** [m1|m2]: the left alternative has priority. *)
Definition m_alt (m1 m2 : Matcher) : Matcher :=
  fun s cap k =>
    match m1 s cap k with
    | Some r => Some r
    | None => m2 s cap k
    end.

(** What was consumed between the input [s] and its suffix [s']. *)
Definition consumed (s s' : string) : string :=
  substring 0 (String.length s - String.length s') s.

(** [(m)]: capture group 1. *)
Definition m_group (m : Matcher) : Matcher :=
  fun s cap k => m s cap (fun s' _ => k s' (Some (consumed s s'))).

(** [s.match(re)] for a regular expression without flags: the first index
    at which the pattern matches, from the left.  [None] is [null];
    [Some m1] is the match array, of which only [m[1]] is kept. *)
Fixpoint String_match (re : Matcher) (s : string) : option Captures :=
  match re s None (fun _ cap => Some cap) with
  | Some cap => Some cap
  | None =>
      match s with
      | EmptyString => None
      | String _ s' => String_match re s'
      end
  end.

(** The alternatives of a pattern source made of literal characters and
    [|]: the text before the first bar, and the texts after each bar. *)
Fixpoint alternatives (src : string) : string * list string :=
  match src with
  | EmptyString => (EmptyString, [])
  | String c src' =>
      let '(a, bs) := alternatives src' in
      if Ascii.eqb c "|" then (EmptyString, a :: bs)
      else (String c a, bs)
  end.

(** [new RegExp(`(\\d+)\\s+${kw}`)].  In the pattern source the bars of
    [kw] are bars of the whole pattern: the first alternative is
    [(\d+)\s+] followed by the text before the first bar, the others are
    the bare texts after each bar. *)
Definition RegExp_count (kw : string) : Matcher :=
  let '(a, bs) := alternatives kw in
  List.fold_left (fun m b => m_alt m (m_lit b)) bs
    (m_seq (m_group (m_plus isDigit)) (m_seq (m_plus isSpace) (m_lit a))).

(** The pattern [(\d+)\s+a|b], which [RegExp_count] builds from a source
    [a|b] with one bar. *)
Definition count_re (a b : string) : Matcher :=
  m_alt (m_seq (m_group (m_plus isDigit)) (m_seq (m_plus isSpace) (m_lit a)))
        (m_lit b).

(** Every character of [s] is in the class [p]. *)
Fixpoint all (p : ascii -> bool) (s : string) : bool :=
  match s with
  | EmptyString => true
  | String c s' => p c && all p s'
  end.

(** [s] is empty or begins with a character outside the class [p]. *)
Definition starts_outside (p : ascii -> bool) (s : string) : Prop :=
  match s with
  | EmptyString => True
  | String c _ => p c = false
  end.

(** *** parseInt *)

Fixpoint trimStart (s : string) : string :=
  match s with
  | String c s' => if isSpace c then trimStart s' else s
  | EmptyString => EmptyString
  end.

(** The value of the leading decimal digits of [s], and whether there was
    at least one. *)
Fixpoint digits_value (acc : Z) (seen : bool) (s : string) : Z * bool :=
  match s with
  | String c s' =>
      if isDigit c
      then digits_value (10 * acc + Z.of_N (code c - 48)) true s'
      else (acc, seen)
  | EmptyString => (acc, seen)
  end.

Definition parseInt_string (s : string) : number :=
  let t := trimStart s in
  let '(sign, t) :=
    match t with
    | String c t' =>
        if Ascii.eqb c "-" then ((-1)%Z, t')
        else if Ascii.eqb c "+" then (1%Z, t')
        else (1%Z, t)
    | EmptyString => (1%Z, t)
    end in
  let '(v, seen) := digits_value 0 false t in
  if seen then of_Z (sign * v) else NaN.

(** [parseInt(x, 10)] for [x] a string or [undefined]; [undefined] is first
    converted to the string "undefined". *)
Definition parseInt (x : option string) : number :=
  parseInt_string (nullish x "undefined").

End JS.

(* ================================================================== *)
(** ** The scene plan                                                 *)
(* ================================================================== *)

Import JS.
Open Scope string_scope.

Inductive Motion : Type := orbit | float | none.
Inductive Shape : Type := sphere | box | torus | icosa.
Inductive MaterialKind : Type := standard | basic | toon.

(** [type ObjectSpec]: [shape] and [count] are required, every other field
    is optional. *)
Record ObjectSpec : Type := {
  shape : Shape;
  count : number;
  color : option string;
  material : option MaterialKind;
  size : option number;
  metalness : option number;
  roughness : option number;
  motion : option Motion;
  radius : option number
}.

Record ScenePlan : Type := {
  objects : list ObjectSpec
}.

(** *** planSceneFromTextMock *)

(** The local [pick], closed over [lower]; [m ? ... : def] tests the match
    array against [null]. *)
Definition pick (lower kw : string) (def : number) : number :=
  match String_match (RegExp_count kw) lower with
  | Some m1 => Math_min (parseInt m1) (Num 200)
  | None => def
  end.

(** The local [has], closed over [lower]. *)
Definition has (lower kw : string) : bool := includes kw lower.

(** [plan.objects.push(o)]. *)
Definition push (os : list ObjectSpec) (o : ObjectSpec) : list ObjectSpec :=
  os ++ [o].

Definition sphere_spec (lower : string) (spheres : number) : ObjectSpec :=
  let has := has lower in
  {| shape := sphere;
     count := spheres;
     color := Some (if has "red" then "tomato"
                    else if has "blue" then "skyblue" else "#9cf");
     material := Some (if has "metal" then standard else standard);
     metalness := Some (if has "metal" then Num 0.9 else Num 0.2);
     roughness := Some (if has "metal" then Num 0.1 else Num 0.6);
     motion := Some (if has "orbit" then orbit
                     else if has "float" then float else none);
     size := Some (Num 0.06);
     radius := Some (if has "close" then Num 0.5 else Num 1.2) |}.

Definition box_spec (lower : string) (boxes : number) : ObjectSpec :=
  let has := has lower in
  {| shape := box;
     count := boxes;
     color := Some (if has "blue" then "deepskyblue" else "#ff9");
     material := Some (if has "toon" then toon else standard);
     metalness := Some (Num 0.1);
     roughness := Some (Num 0.8);
     motion := Some (if has "float" then float else orbit);
     size := Some (Num 0.08);
     radius := Some (Num 1.0) |}.

Definition torus_spec (lower : string) (n : number) : ObjectSpec :=
  let has := has lower in
  {| shape := torus;
     count := n;
     color := Some (if has "gold" then "#d4af37" else "#faf");
     material := Some standard;
     metalness := Some (if has "gold" then Num 1 else Num 0.5);
     roughness := Some (if has "gold" then Num 0.2 else Num 0.5);
     motion := Some orbit;
     size := Some (Num 0.12);
     radius := Some (Num 1.4) |}.

Definition icosa_spec (n : number) : ObjectSpec :=
  {| shape := icosa;
     count := n;
     color := Some "#aaf";
     material := Some standard;
     metalness := Some (Num 0.2);
     roughness := Some (Num 0.7);
     motion := Some float;
     size := Some (Num 0.09);
     radius := Some (Num 0.9) |}.

(** The entry pushed when no rule has pushed anything. *)
Definition default_spec : ObjectSpec :=
  {| shape := sphere;
     count := Num 10;
     color := Some "#9cf";
     material := Some standard;
     metalness := Some (Num 0.2);
     roughness := Some (Num 0.7);
     motion := Some orbit;
     size := Some (Num 0.06);
     radius := Some (Num 1.2) |}.

(** The four counts, [pick(...) || (has(...) ? d : 0)]. *)
Definition spheres_of (lower : string) : number :=
  or_else (pick lower "sphere|spheres" (Num 0))
          (if has lower "sphere" then Num 5 else Num 0).

Definition boxes_of (lower : string) : number :=
  or_else (pick lower "box|boxes" (Num 0))
          (if has lower "box" then Num 10 else Num 0).

Definition torus_of (lower : string) : number :=
  or_else (pick lower "torus|tori" (Num 0))
          (if has lower "torus" then Num 3 else Num 0).

Definition icosa_of (lower : string) : number :=
  or_else (pick lower "icosa|icosahedra" (Num 0))
          (if has lower "icosa" then Num 6 else Num 0).

(** The body of [planSceneFromTextMock] after [lower] is computed. *)
Definition plan_of_lower (lower : string) : ScenePlan :=
  let os := [] in
  let spheres := spheres_of lower in
  let os := if truthy spheres then push os (sphere_spec lower spheres) else os in
  let boxes := boxes_of lower in
  let os := if truthy boxes then push os (box_spec lower boxes) else os in
  let torus := torus_of lower in
  let os := if truthy torus then push os (torus_spec lower torus) else os in
  let icosa := icosa_of lower in
  let os := if truthy icosa then push os (icosa_spec icosa) else os in
  let os := if Nat.eqb (List.length os) 0 then push os default_spec else os in
  {| objects := os |}.

Definition planSceneFromTextMock (input : string) : ScenePlan :=
  plan_of_lower (toLowerCase input).

(** Where an entry of the plan comes from. *)
Inductive origin (lower : string) (o : ObjectSpec) : Prop :=
| from_sphere :
    truthy (spheres_of lower) = true ->
    o = sphere_spec lower (spheres_of lower) -> origin lower o
| from_box :
    truthy (boxes_of lower) = true ->
    o = box_spec lower (boxes_of lower) -> origin lower o
| from_torus :
    truthy (torus_of lower) = true ->
    o = torus_spec lower (torus_of lower) -> origin lower o
| from_icosa :
    truthy (icosa_of lower) = true ->
    o = icosa_spec (icosa_of lower) -> origin lower o
| from_default :
    truthy (spheres_of lower) = false -> truthy (boxes_of lower) = false ->
    truthy (torus_of lower) = false -> truthy (icosa_of lower) = false ->
    o = default_spec -> origin lower o.

(** *** applyPrompt: the clamp pass *)

(** The body of the [forEach] callback.  [count] is a required field, so
    [o.count ?? 1] always finds it. *)
Definition clamp_object (o : ObjectSpec) : ObjectSpec :=
  {| shape := shape o;
     count := Math_min (Math_max (nullish (Some (count o)) (Num 1)) (Num 1)) (Num 200);
     color := color o;
     material := material o;
     size := Some (Math_min (Math_max (nullish (size o) (Num 0.06)) (Num 0.02)) (Num 0.4));
     metalness := Some (Math_min (Math_max (nullish (metalness o) (Num 0.2)) (Num 0)) (Num 1));
     roughness := Some (Math_min (Math_max (nullish (roughness o) (Num 0.7)) (Num 0)) (Num 1));
     motion := motion o;
     radius := Some (Math_min (Math_max (nullish (radius o) (Num 1.2)) (Num 0.2)) (Num 5)) |}.

(** [plan.objects.forEach(...)] on a plan. *)
Definition validate (plan : ScenePlan) : ScenePlan :=
  {| objects := List.map clamp_object (objects plan) |}.

(** The plan that [applyPrompt] hands to [setPlan]. *)
Definition applyPrompt (prompt : string) : ScenePlan :=
  validate (planSceneFromTextMock prompt).

(** The initial [prompt] state of [App], and the initial [plan] state, which
    is computed from it without the clamp pass. *)
Definition App_prompt : string :=
  "20 red spheres orbit, 5 gold torus, add 10 blue boxes floating".

Definition App_plan : ScenePlan := planSceneFromTextMock App_prompt.

(** The ranges of the clamp pass, as a property of one entry. *)
Definition present_between (lo hi : Q) (a : option number) : Prop :=
  match a with
  | Some v => between lo hi v
  | None => False
  end.

Definition in_ranges (o : ObjectSpec) : Prop :=
  between 1 200 (count o) /\
  present_between 0.02 0.4 (size o) /\
  present_between 0.2 5 (radius o) /\
  present_between 0 1 (metalness o) /\
  present_between 0 1 (roughness o).

(** No numeric field of the entry holds [NaN]. *)
Definition NaN_free (o : ObjectSpec) : Prop :=
  is_NaN (count o) = false /\
  size o <> Some NaN /\
  radius o <> Some NaN /\
  metalness o <> Some NaN /\
  roughness o <> Some NaN.

(* ================================================================== *)
(** ** FloatingObjects: the instance table and the frame callback     *)
(* ================================================================== *)

Module Instance.
Record t : Type := { ang : number; y : number; speed : number; r : number }.
End Instance.

Module Vector3.
Record t : Type := { x : number; y : number; z : number }.
End Vector3.

Record Object3D : Type := {
  position : Vector3.t;
  rotation : Vector3.t
}.

Section FloatingObjects.

(** The host's [Math.sin] and [Math.cos]. *)
Variable Math_sin : number -> number.
Variable Math_cos : number -> number.

(** The [useMemo] body: it reads [spec.count], [spec.radius] and [seed]. *)
Definition instances (spec : ObjectSpec) (seed : number)
  : option (list Instance.t) :=
  let r := Math_max (nullish (radius spec) (Num 1.2)) (Num 0.2) in
  Array_from_length_map (count spec) (fun i =>
    let ang := mul (mul (div (add (of_nat i) seed) (count spec)) Math_PI) (Num 2) in
    let y := add (mul (add (mul (Math_sin (add (mul (of_nat i) (Num 12.9898)) seed))
                                (Num 0.5)) (Num 0.5)) (Num 0.6)) (Num 0.2) in
    {| Instance.ang := ang;
       Instance.y := y;
       Instance.speed := add (Num 0.4) (mul (rem i 7) (Num 0.03));
       Instance.r := mul r (add (Num 0.9) (mul (rem i 5) (Num 0.02))) |}).

(** The angle of an orbiting instance at clock reading [now]. *)
Definition orbit_angle (it : Instance.t) (now : number) : number :=
  add (Instance.ang it) (mul (mul (Instance.speed it) now) (Num 0.00015)).

(** The body of the [forEach] callback of [useFrame] for child [i]; [now]
    is what [performance.now()] returns in that call. *)
Definition update_child (spec : ObjectSpec) (insts : list Instance.t)
  (now dt : number) (i : nat) (obj : Object3D) : Object3D :=
  match nth_error insts i with
  | None => obj
  | Some it =>
      match motion spec with
      | Some orbit =>
          let a := orbit_angle it now in
          {| position :=
               {| Vector3.x := mul (Math_cos a) (Instance.r it);
                  Vector3.y := Instance.y it;
                  Vector3.z := mul (Math_sin a) (Instance.r it) |};
             rotation :=
               {| Vector3.x := Vector3.x (rotation obj);
                  Vector3.y := add (Vector3.y (rotation obj)) (mul dt (Num 0.5));
                  Vector3.z := Vector3.z (rotation obj) |} |}
      | Some float =>
          {| position :=
               {| Vector3.x := Vector3.x (position obj);
                  Vector3.y := add (Instance.y it)
                                 (mul (Math_sin (add (mul now (Num 0.001)) (of_nat i)))
                                      (Num 0.1));
                  Vector3.z := Vector3.z (position obj) |};
             rotation :=
               {| Vector3.x := add (Vector3.x (rotation obj)) (mul dt (Num 0.3));
                  Vector3.y := add (Vector3.y (rotation obj)) (mul dt (Num 0.2));
                  Vector3.z := Vector3.z (rotation obj) |} |}
      | _ => obj
      end
  end.

(** [children.forEach((child, i) => ...)], from index [i]. *)
Fixpoint forEach_from (f : nat -> Object3D -> Object3D) (i : nat)
  (children : list Object3D) : list Object3D :=
  match children with
  | [] => []
  | obj :: rest => f i obj :: forEach_from f (S i) rest
  end.

(** One rendered frame: the clock readings of the calls (one per child)
    and the frame delta. *)
Record Frame : Type := {
  now_at : nat -> number;
  delta : number
}.

(** The [useFrame] callback.  [group] is [group.current]: [None] when the
    ref is not attached, otherwise the children of the group. *)
Definition onFrame (spec : ObjectSpec) (insts : list Instance.t)
  (group : option (list Object3D)) (f : Frame) : option (list Object3D) :=
  match group with
  | None => None
  | Some children =>
      Some (forEach_from
              (fun i obj => update_child spec insts (now_at f i) (delta f) i obj)
              0 children)
  end.

(** A history of frames, oldest first. *)
Definition run (spec : ObjectSpec) (insts : list Instance.t)
  (group : option (list Object3D)) (frames : list Frame)
  : option (list Object3D) :=
  List.fold_left (onFrame spec insts) frames group.

(** Child [i] of the group. *)
Definition child (group : option (list Object3D)) (i : nat) : option Object3D :=
  match group with
  | None => None
  | Some children => nth_error children i
  end.

End FloatingObjects.

(** [SharedScene] gives entry [i] of the plan the seed [i * 13 + 7]. *)
Definition SharedScene_seed (i : nat) : number := of_nat (i * 13 + 7).

(* ================================================================== *)
(** ** TowerModel: the scale that fits the model to a height          *)
(* ================================================================== *)

(** The [useMemo] body of [TowerModel].  [scene] is [gltf?.scene], given by
    the size of its bounding box as [Box3.getSize] measures it; [None] is a
    model that could not be loaded. *)
Definition scale (scene : option Vector3.t) (fitHeight : number) : number :=
  match scene with
  | None => Num 1
  | Some size =>
      let h := or_else (Vector3.y size) (Num 1) in
      div fitHeight h
  end.

(** The solver as the specification calls it: a measured height and a
    desired height. *)
Definition solve (measuredHeight desiredHeight : number) : number :=
  scale (Some {| Vector3.x := Num 0; Vector3.y := measuredHeight; Vector3.z := Num 0 |})
        desiredHeight.

(** The two fixed heights: [WebViewer] and [ARViewer]. *)
Definition WebViewer_towerHeight : number := Num 1.2.

(* ================================================================== *)
(** ** What the components render                                     *)
(* ================================================================== *)

(** The props object [commonMatProps]. *)
Record MatProps : Type := {
  props_color : string;
  props_metalness : number;
  props_roughness : number
}.

(** The three material elements of [materialFrom]. *)
Inductive MaterialElement : Type :=
| meshBasicMaterial (props : MatProps)
| meshToonMaterial (props : MatProps)
| meshStandardMaterial (props : MatProps).

Definition materialFrom (kind : MaterialKind) (props : MatProps) : MaterialElement :=
  match kind with
  | basic => meshBasicMaterial props
  | toon => meshToonMaterial props
  | _ => meshStandardMaterial props
  end.

(** The four geometry elements of [ShapeGeometry], with their [args]. *)
Inductive GeometryElement : Type :=
| boxGeometry (width height depth : number)
| torusGeometry (radius tube : number) (radialSegments tubularSegments : nat)
| icosahedronGeometry (radius : number) (detail : nat)
| sphereGeometry (radius : number) (widthSegments heightSegments : nat).

Definition ShapeGeometry (shape : Shape) (size : number) : GeometryElement :=
  match shape with
  | box => boxGeometry size size size
  | torus => torusGeometry (mul size (Num 0.6)) (mul size (Num 0.25)) 16 64
  | icosa => icosahedronGeometry size 0
  | _ => sphereGeometry (mul size (Num 0.5)) 32 32
  end.

(** The lengths among the [args] of a geometry element. *)
Definition dimensions (g : GeometryElement) : list number :=
  match g with
  | boxGeometry w h d => [w; h; d]
  | torusGeometry r t _ _ => [r; t]
  | icosahedronGeometry r _ => [r]
  | sphereGeometry r _ _ => [r]
  end.

Record Mesh : Type := {
  mesh_geometry : GeometryElement;
  mesh_material : MaterialElement
}.

(** [commonMatProps] of [FloatingObjects]. *)
Definition commonMatProps (spec : ObjectSpec) : MatProps :=
  {| props_color := nullish (color spec) "#9cf";
     props_metalness := nullish (metalness spec) (Num 0.2);
     props_roughness := nullish (roughness spec) (Num 0.7) |}.

(** The one mesh that [FloatingObjects] renders for every instance. *)
Definition FloatingObjects_mesh (spec : ObjectSpec) : Mesh :=
  {| mesh_geometry := ShapeGeometry (shape spec) (nullish (size spec) (Num 0.08));
     mesh_material := materialFrom (nullish (material spec) standard)
                        (commonMatProps spec) |}.

(** The children of the group that [FloatingObjects] returns:
    [instances.map((_, i) => <mesh ...>)]. *)
Definition FloatingObjects_meshes (insts : list Instance.t) (spec : ObjectSpec)
  : list Mesh :=
  List.map (fun _ => FloatingObjects_mesh spec) insts.

(** [xs.map((x, i) => f x i)], from index [i]. *)
Fixpoint map_index {A B : Type} (f : A -> nat -> B) (i : nat) (xs : list A)
  : list B :=
  match xs with
  | [] => []
  | x :: rest => f x i :: map_index f (S i) rest
  end.

(** The [FloatingObjects] elements of [SharedScene], by their props:
    [plan.objects.map((spec, i) => <FloatingObjects spec={spec}
    seed={i * 13 + 7} />)]. *)
Definition SharedScene_objects (plan : ScenePlan) : list (ObjectSpec * number) :=
  map_index (fun spec i => (spec, SharedScene_seed i)) 0 (objects plan).



(** The categories the lowercased text names, in the order of the rules. *)
Definition named_shapes (lower : string) : list Shape :=
  (if has lower "sphere" then [sphere] else []) ++
  (if has lower "box" then [box] else []) ++
  (if has lower "torus" then [torus] else []) ++
  (if has lower "icosa" then [icosa] else []).

(* ================================================================== *)
(** ** Sample values for running the definitions                      *)
(* ================================================================== *)

(** Stand-ins for the host's [Math.sin] and [Math.cos] where an example has
    to run: the Taylor polynomials of degree 7 and 6.  The theorems below
    hold for every choice of the two functions. *)
Definition sin_poly (a : number) : number :=
  match a with
  | NaN => NaN
  | Num x => Num (x - x ^ 3 / 6 + x ^ 5 / 120 - x ^ 7 / 5040)
  end.

Definition cos_poly (a : number) : number :=
  match a with
  | NaN => NaN
  | Num x => Num (1 - x ^ 2 / 2 + x ^ 4 / 24 - x ^ 6 / 720)
  end.


(** A plan entry given by its count and radius alone. *)
Definition spec_of (n : number) (rad : option number) : ObjectSpec :=
  {| shape := sphere; count := n; color := None; material := None;
     size := None; metalness := None; roughness := None;
     motion := Some orbit; radius := rad |}.

(** An entry whose count is [NaN]; it has the type [ObjectSpec]. *)
Definition NaN_count_spec : ObjectSpec :=
  {| shape := sphere; count := NaN; color := None; material := None;
     size := None; metalness := None; roughness := None; motion := None;
     radius := None |}.

(** An entry with fields missing and fields far out of range. *)
Definition wild_spec : ObjectSpec :=
  {| shape := torus; count := Num 100000; color := None; material := None;
     size := Some (Num (-3)); metalness := None; roughness := Some (Num 7);
     motion := None; radius := Some (Num 0) |}.

(** A child at rest at the origin. *)
Definition origin_object : Object3D :=
  {| position := {| Vector3.x := Num 0; Vector3.y := Num 0; Vector3.z := Num 0 |};
     rotation := {| Vector3.x := Num 0; Vector3.y := Num 0; Vector3.z := Num 0 |} |}.

(** A frame in which every call reads the clock at [t]. *)
Definition frame_at (t dt : Q) : Frame :=
  {| now_at := fun _ => Num t; delta := Num dt |}.

Definition one_instance : Instance.t :=
  {| Instance.ang := Num 0; Instance.y := Num 0.5;
     Instance.speed := Num 0.4; Instance.r := Num 1.08 |}.

(* ================================================================== *)
(** ** Facts about the host language                                  *)
(* ================================================================== *)

Module JSFacts.

Open Scope string_scope.

Lemma strip_prefix_sound (w s s' : string) :
  strip_prefix w s = Some s' -> s = w ++ s'.
Proof.
  revert s. induction w as [|a w IH]; intros s H; simpl in *.
  - now inversion H.
  - destruct s as [|b s]; [discriminate|].
    destruct (Ascii.eqb a b) eqn:E; [|discriminate].
    apply Ascii.eqb_eq in E. subst b. f_equal. now apply IH.
Qed.

Lemma strip_prefix_complete (w s' : string) :
  strip_prefix w (w ++ s') = Some s'.
Proof.
  induction w as [|a w IH]; simpl; [reflexivity|].
  now rewrite Ascii.eqb_refl.
Qed.

Lemma includes_here (w v : string) : includes w (w ++ v) = true.
Proof.
  destruct (w ++ v) eqn:E; simpl; unfold startsWith; rewrite <- E;
    now rewrite strip_prefix_complete.
Qed.

Lemma includes_later (w u v : string) :
  includes w v = true -> includes w (u ++ v) = true.
Proof.
  intros H. induction u as [|c u IH]; simpl; [exact H|].
  rewrite IH. apply orb_true_r.
Qed.

Lemma includes_inside (w d u v : string) :
  includes w (d ++ u ++ w ++ v) = true.
Proof. do 2 apply includes_later. apply includes_here. Qed.

Lemma length_app (u v : string) :
  String.length (u ++ v) = (String.length u + String.length v)%nat.
Proof. induction u; simpl; congruence. Qed.

Lemma substring_prefix (u v : string) :
  substring 0 (String.length u) (u ++ v) = u.
Proof.
  induction u as [|c u IH]; simpl.
  - now destruct v.
  - now rewrite IH.
Qed.

Lemma consumed_app (u v : string) : consumed (u ++ v) v = u.
Proof.
  unfold consumed. rewrite length_app.
  replace (String.length u + String.length v - String.length v)%nat
    with (String.length u) by lia.
  apply substring_prefix.
Qed.

(** *** What a successful match consumed *)

Lemma m_star_inv (p : ascii -> bool) (s : string) (cap : Captures)
  (k : Continuation) (res : Captures) :
  m_star p s cap k = Some res ->
  exists w s', s = w ++ s' /\ all p w = true /\ k s' cap = Some res.
Proof.
  induction s as [|c s IH]; simpl; intros H.
  - exists "", "". auto.
  - destruct (p c) eqn:Hc.
    + destruct (m_star p s cap k) as [r0|] eqn:Hs.
      * inversion H; subst r0.
        destruct (IH eq_refl) as (w & s' & -> & Hw & Hk).
        exists (String c w), s'. simpl. rewrite Hc, Hw. auto.
      * exists "", (String c s). auto.
    + exists "", (String c s). auto.
Qed.

Lemma m_plus_inv (p : ascii -> bool) (s : string) (cap : Captures)
  (k : Continuation) (res : Captures) :
  m_plus p s cap k = Some res ->
  exists w s', s = w ++ s' /\ w <> "" /\ all p w = true /\ k s' cap = Some res.
Proof.
  unfold m_plus. destruct s as [|c s]; [discriminate|].
  destruct (p c) eqn:Hc; [|discriminate]. intros H.
  destruct (m_star_inv _ _ _ _ _ H) as (w & s' & -> & Hw & Hk).
  exists (String c w), s'. simpl. rewrite Hc, Hw.
  repeat split; auto. discriminate.
Qed.

(** A match of [(\d+)\s+a|b] that sets group 1 went through the first
    alternative: digits, white space, then [a]. *)
Lemma count_re_capture (a b s d : string) :
  count_re a b s None (fun _ cap => Some cap) = Some (Some d) ->
  d <> "" /\ all isDigit d = true /\
  exists u v, s = d ++ u ++ a ++ v.
Proof.
  unfold count_re, m_alt, m_seq, m_group. intros H.
  match type of H with
  | match ?first with _ => _ end = _ => destruct first as [r|] eqn:E
  end.
  - inversion H; subst r. clear H.
    apply m_plus_inv in E. destruct E as (w & s1 & -> & Hne & Hw & E).
    apply m_plus_inv in E. destruct E as (u & s2 & -> & _ & _ & E).
    unfold m_lit in E. destruct (strip_prefix a s2) as [v|] eqn:Ha; [|discriminate].
    apply strip_prefix_sound in Ha. subst s2.
    rewrite consumed_app in E. inversion E; subst d.
    repeat split; auto. now exists u, v.
  - unfold m_lit in H. destruct (strip_prefix b s); discriminate.
Qed.

Lemma String_match_capture (a b s d : string) :
  String_match (count_re a b) s = Some (Some d) ->
  d <> "" /\ all isDigit d = true /\ includes a s = true.
Proof.
  induction s as [|c s IH]; simpl; intros H.
  - destruct (count_re a b "" None (fun _ cap => Some cap)) as [r|] eqn:E;
      [|discriminate].
    inversion H; subst r.
    destruct (count_re_capture _ _ _ _ E) as (Hne & Hd & u & v & Hs).
    repeat split; auto.
    change (includes a "" = true). rewrite Hs. apply includes_inside.
  - destruct (count_re a b (String c s) None (fun _ cap => Some cap)) as [r|] eqn:E.
    + inversion H; subst r.
      destruct (count_re_capture _ _ _ _ E) as (Hne & Hd & u & v & Hs).
      repeat split; auto.
      change (includes a (String c s) = true). rewrite Hs. apply includes_inside.
    + destruct (IH H) as (Hne & Hd & Hi). repeat split; auto.
      rewrite Hi. apply orb_true_r.
Qed.

(** *** When the first alternative does match

    A greedy class repetition that can take a whole run [w], after which
    the continuation succeeds, answers with that first attempt. *)

Lemma m_star_greedy (p : ascii -> bool) (w s' : string) (cap : Captures)
  (k : Continuation) (res : Captures) :
  all p w = true -> starts_outside p s' ->
  k s' cap = Some res -> m_star p (w ++ s') cap k = Some res.
Proof.
  intros Hw Hs Hk. induction w as [|c w IH]; simpl in *.
  - destruct s' as [|c s']; simpl in *; [exact Hk|]. now rewrite Hs.
  - apply andb_true_iff in Hw. destruct Hw as [Hc Hw].
    now rewrite Hc, (IH Hw).
Qed.

Lemma m_plus_greedy (p : ascii -> bool) (w s' : string) (cap : Captures)
  (k : Continuation) (res : Captures) :
  w <> "" -> all p w = true -> starts_outside p s' ->
  k s' cap = Some res -> m_plus p (w ++ s') cap k = Some res.
Proof.
  intros Hne Hw Hs Hk. destruct w as [|c w]; [congruence|].
  simpl in *. apply andb_true_iff in Hw. destruct Hw as [Hc Hw].
  rewrite Hc. now apply m_star_greedy.
Qed.

Lemma starts_outside_app (p q : ascii -> bool) (w s' : string) :
  w <> "" -> all q w = true -> (forall c, q c = true -> p c = false) ->
  starts_outside p (w ++ s').
Proof.
  intros Hne Hw Hpq. destruct w as [|c w]; [congruence|].
  simpl in *. apply andb_true_iff in Hw. now apply Hpq.
Qed.

(** *** parseInt on a run of digits *)

Lemma digit_not_space (c : ascii) : isDigit c = true -> isSpace c = false.
Proof.
  unfold isDigit, isSpace. intros H.
  apply andb_true_iff in H. destruct H as [H1 H2].
  apply N.leb_le in H1. apply N.leb_le in H2.
  repeat rewrite orb_false_iff. repeat split.
  - apply andb_false_iff. right. apply N.leb_gt. lia.
  - apply N.eqb_neq. lia.
  - apply N.eqb_neq. lia.
Qed.

Lemma space_not_digit (c : ascii) : isSpace c = true -> isDigit c = false.
Proof.
  intros H. destruct (isDigit c) eqn:E; [|reflexivity].
  apply digit_not_space in E. congruence.
Qed.

Lemma digit_not_sign (c : ascii) :
  isDigit c = true -> Ascii.eqb c "-" = false /\ Ascii.eqb c "+" = false.
Proof.
  unfold isDigit. intros H.
  apply andb_true_iff in H. destruct H as [H1 H2].
  apply N.leb_le in H1. apply N.leb_le in H2.
  split; apply Ascii.eqb_neq; intros ->; vm_compute in H1; now apply H1.
Qed.

Lemma digits_value_nonneg (s : string) (acc : Z) (seen : bool) (v : Z) (b : bool) :
  digits_value acc seen s = (v, b) -> (0 <= acc)%Z -> (0 <= v)%Z.
Proof.
  revert acc seen. induction s as [|c s IH]; cbn [digits_value];
    intros acc seen H Hacc.
  - inversion H; subst; auto.
  - destruct (isDigit c).
    + eapply IH; [exact H|].
      pose proof (N2Z.is_nonneg (code c - 48)). lia.
    + inversion H; subst; auto.
Qed.

Lemma digits_value_seen (s : string) (acc : Z) (v : Z) (b : bool) :
  digits_value acc true s = (v, b) -> b = true.
Proof.
  revert acc. induction s as [|c s IH]; cbn [digits_value]; intros acc H.
  - now inversion H.
  - destruct (isDigit c); [eauto | now inversion H].
Qed.

Lemma parseInt_digits (d : string) :
  d <> "" -> all isDigit d = true ->
  exists v, (0 <= v)%Z /\ parseInt (Some d) = of_Z v.
Proof.
  intros Hne Hd. destruct d as [|c d]; [congruence|].
  simpl in Hd. apply andb_true_iff in Hd. destruct Hd as [Hc Hd].
  unfold parseInt, parseInt_string, nullish. simpl trimStart.
  rewrite (digit_not_space _ Hc).
  destruct (digit_not_sign _ Hc) as [-> ->].
  destruct (digits_value 0 false (String c d)) as [v seen] eqn:E.
  pose proof (digits_value_nonneg _ _ _ _ _ E ltac:(lia)) as Hv.
  cbn [digits_value] in E. rewrite Hc in E.
  apply digits_value_seen in E. subst seen.
  exists v. split; auto. now rewrite Z.mul_1_l.
Qed.

Lemma parseInt_digits_value (d : string) :
  d <> "" -> all isDigit d = true ->
  parseInt (Some d) = of_Z (fst (digits_value 0 false d)).
Proof.
  intros Hne Hd. destruct d as [|c d]; [congruence|].
  simpl in Hd. apply andb_true_iff in Hd. destruct Hd as [Hc Hd].
  unfold parseInt, parseInt_string, nullish. simpl trimStart.
  rewrite (digit_not_space _ Hc).
  destruct (digit_not_sign _ Hc) as [-> ->].
  destruct (digits_value 0 false (String c d)) as [v seen] eqn:E.
  cbn [fst]. pose proof E as E'.
  cbn [digits_value] in E'. rewrite Hc in E'.
  apply digits_value_seen in E'. subst seen.
  now rewrite Z.mul_1_l.
Qed.

(** The pattern [(\d+)\s+a|b] at a place where digits, white space and [a]
    stand in a row: group 1 is the run of digits. *)
Lemma count_re_here (a b d w rest : string) :
  d <> "" -> all isDigit d = true ->
  w <> "" -> all isSpace w = true ->
  a <> "" -> starts_outside isSpace a ->
  count_re a b (d ++ w ++ a ++ rest) None (fun _ cap => Some cap) = Some (Some d).
Proof.
  intros Hd1 Hd2 Hw1 Hw2 Ha1 Ha2.
  unfold count_re, m_alt, m_seq, m_group.
  rewrite (m_plus_greedy isDigit d (w ++ a ++ rest) None _ (Some d));
    auto.
  - apply (starts_outside_app isDigit isSpace); auto. apply space_not_digit.
  - rewrite consumed_app.
    apply m_plus_greedy; auto.
    + destruct a as [|c a]; [congruence|]. exact Ha2.
    + unfold m_lit. now rewrite strip_prefix_complete.
Qed.

(** Nothing matches at the indices of [pre] when [pre] has no digit and
    the second alternative begins at none of them. *)
Lemma String_match_skip (a b pre s : string) (res : option Captures) :
  all (fun c => negb (isDigit c)) pre = true ->
  (forall u v, pre = u ++ v -> v <> "" -> startsWith b (v ++ s) = false) ->
  String_match (count_re a b) s = res ->
  String_match (count_re a b) (pre ++ s) = res.
Proof.
  intros Hpre Hb Hs. induction pre as [|c pre IH]; [exact Hs|].
  simpl in Hpre. apply andb_true_iff in Hpre. destruct Hpre as [Hc Hpre].
  apply negb_true_iff in Hc.
  change (String_match (count_re a b) (String c (pre ++ s)) = res).
  cbn [String_match].
  assert (count_re a b (String c (pre ++ s)) None (fun _ cap => Some cap) = None)
    as ->.
  { unfold count_re, m_alt, m_seq, m_group, m_plus. rewrite Hc.
    unfold m_lit.
    specialize (Hb "" (String c pre) eq_refl ltac:(discriminate)).
    unfold startsWith in Hb. simpl in Hb.
    now destruct (strip_prefix b (String c (pre ++ s))). }
  apply IH; [exact Hpre|].
  intros u v E Hv. apply (Hb (String c u) v); [|exact Hv].
  simpl. now rewrite E.
Qed.

(** *** Numbers *)

Lemma truthy_of_Z (z : Z) : truthy (of_Z z) = negb (Z.eqb z 0).
Proof.
  unfold truthy, of_Z, Qeq_bool. simpl. f_equal.
  now rewrite Z.mul_1_r.
Qed.

Lemma Qle_bool_inject (a b : Z) : Qle_bool (inject_Z a) (inject_Z b) = Z.leb a b.
Proof. unfold Qle_bool. simpl. now rewrite !Z.mul_1_r. Qed.

Lemma between_of_Z (lo hi z : Z) :
  (lo <= z <= hi)%Z -> between (inject_Z lo) (inject_Z hi) (of_Z z).
Proof.
  intros [H1 H2]. unfold between, of_Z.
  split; apply Qle_bool_iff; rewrite Qle_bool_inject; now apply Z.leb_le.
Qed.

End JSFacts.

(* ================================================================== *)
(** ** The planner                                                    *)
(* ================================================================== *)

Module PlanFacts.

Import JSFacts.
Open Scope string_scope.

(** The four pattern sources have one bar each. *)
Lemma RegExp_count_sphere :
  RegExp_count "sphere|spheres" = count_re "sphere" "spheres".
Proof. reflexivity. Qed.

Lemma RegExp_count_box : RegExp_count "box|boxes" = count_re "box" "boxes".
Proof. reflexivity. Qed.

Lemma RegExp_count_torus : RegExp_count "torus|tori" = count_re "torus" "tori".
Proof. reflexivity. Qed.

Lemma RegExp_count_icosa :
  RegExp_count "icosa|icosahedra" = count_re "icosa" "icosahedra".
Proof. reflexivity. Qed.

(** A truthy [pick] read its number in front of the first keyword form, and
    the number is a whole number from 1 to 200. *)
Lemma pick_truthy (lower kw a b : string) :
  RegExp_count kw = count_re a b ->
  truthy (pick lower kw (Num 0)) = true ->
  has lower a = true /\
  exists z, (1 <= z <= 200)%Z /\ pick lower kw (Num 0) = of_Z z.
Proof.
  intros Hre. unfold pick, has. rewrite Hre.
  destruct (String_match (count_re a b) lower) as [[d|]|] eqn:E.
  - destruct (String_match_capture _ _ _ _ E) as (Hne & Hd & Hi).
    destruct (parseInt_digits d Hne Hd) as (v & Hv & ->).
    unfold Math_min, of_Z.
    change (Qle_bool (inject_Z v) 200) with (Qle_bool (inject_Z v) (inject_Z 200)).
    rewrite Qle_bool_inject.
    destruct (Z.leb v 200) eqn:L; intros T; split; auto.
    + fold (of_Z v) in T. rewrite truthy_of_Z in T.
      apply negb_true_iff, Z.eqb_neq in T. apply Z.leb_le in L.
      exists v. split; [lia | reflexivity].
    + exists 200%Z. split; [lia | reflexivity].
  - intros T. discriminate T.
  - intros T. discriminate T.
Qed.

(** The count of a category, [pick(kw) || (has(a) ? d : 0)]: it is truthy
    exactly when the first keyword form occurs in the text, and then it is
    a whole number from 1 to 200. *)
Lemma category_count (lower kw a b : string) (d : Z) :
  RegExp_count kw = count_re a b -> (1 <= d <= 200)%Z ->
  let c := or_else (pick lower kw (Num 0))
                   (if has lower a then of_Z d else Num 0) in
  truthy c = has lower a /\
  (truthy c = true -> exists z, (1 <= z <= 200)%Z /\ c = of_Z z).
Proof.
  intros Hre Hd c. subst c. unfold or_else.
  destruct (truthy (pick lower kw (Num 0))) eqn:T.
  - destruct (pick_truthy lower kw a b Hre T) as (Hh & z & Hz & Hp).
    rewrite T. split; [now rewrite Hh|]. intros _. now exists z.
  - destruct (has lower a) eqn:Hh.
    + rewrite truthy_of_Z.
      assert (Z.eqb d 0 = false) as -> by (apply Z.eqb_neq; lia).
      split; [reflexivity|]. intros _. now exists d.
    + split; [reflexivity|]. intros T'. discriminate T'.
Qed.

Lemma spheres_count (lower : string) :
  truthy (spheres_of lower) = has lower "sphere" /\
  (truthy (spheres_of lower) = true ->
   exists z, (1 <= z <= 200)%Z /\ spheres_of lower = of_Z z).
Proof.
  apply (category_count lower _ _ _ 5 RegExp_count_sphere). lia.
Qed.

Lemma boxes_count (lower : string) :
  truthy (boxes_of lower) = has lower "box" /\
  (truthy (boxes_of lower) = true ->
   exists z, (1 <= z <= 200)%Z /\ boxes_of lower = of_Z z).
Proof.
  apply (category_count lower _ _ _ 10 RegExp_count_box). lia.
Qed.

Lemma torus_count (lower : string) :
  truthy (torus_of lower) = has lower "torus" /\
  (truthy (torus_of lower) = true ->
   exists z, (1 <= z <= 200)%Z /\ torus_of lower = of_Z z).
Proof.
  apply (category_count lower _ _ _ 3 RegExp_count_torus). lia.
Qed.

Lemma icosa_count (lower : string) :
  truthy (icosa_of lower) = has lower "icosa" /\
  (truthy (icosa_of lower) = true ->
   exists z, (1 <= z <= 200)%Z /\ icosa_of lower = of_Z z).
Proof.
  apply (category_count lower _ _ _ 6 RegExp_count_icosa). lia.
Qed.

(** What [pick] reads.  When the text is [pre], a run of digits [d], white
    space [w], the first keyword form [a] and a rest, where [pre] has no
    digit and the second keyword form begins nowhere in [pre], [pick] is
    the value of [d], cut at 200. *)
Lemma pick_reads_count (kw a b pre d w rest : string) :
  RegExp_count kw = count_re a b ->
  all (fun c => negb (isDigit c)) pre = true ->
  (forall u v, pre = u ++ v -> v <> "" ->
     startsWith b (v ++ d ++ w ++ a ++ rest) = false) ->
  d <> "" -> all isDigit d = true ->
  w <> "" -> all isSpace w = true ->
  a <> "" -> starts_outside isSpace a ->
  pick (pre ++ d ++ w ++ a ++ rest) kw (Num 0) =
  Math_min (of_Z (fst (digits_value 0 false d))) (Num 200).
Proof.
  intros Hre Hpre Hb Hd1 Hd2 Hw1 Hw2 Ha1 Ha2. unfold pick. rewrite Hre.
  rewrite (String_match_skip a b pre _ (Some (Some d)) Hpre Hb).
  - now rewrite parseInt_digits_value.
  - destruct (d ++ w ++ a ++ rest) eqn:E; cbn [String_match]; rewrite <- E;
      now rewrite count_re_here.
Qed.

(** [pick_reads_count] on "a 120  spheres now". *)
Example pick_reads_count_example :
  pick "a 120  spheres now" "sphere|spheres" (Num 0) = Num 120.
Proof.
  change "a 120  spheres now" with ("a " ++ "120" ++ "  " ++ "sphere" ++ "s now").
  rewrite (pick_reads_count "sphere|spheres" "sphere" "spheres"
             "a " "120" "  " "s now" RegExp_count_sphere);
    try reflexivity; try discriminate.
  intros u v E Hv.
  destruct u as [|c1 [|c2 [|c3 u]]]; simpl in E; inversion E; subst;
    try reflexivity; congruence.
Qed.

Lemma plan_entries (lower : string) (o : ObjectSpec) :
  In o (objects (plan_of_lower lower)) -> origin lower o.
Proof.
  unfold plan_of_lower, push.
  destruct (truthy (spheres_of lower)) eqn:T1;
  destruct (truthy (boxes_of lower)) eqn:T2;
  destruct (truthy (torus_of lower)) eqn:T3;
  destruct (truthy (icosa_of lower)) eqn:T4;
  simpl; intros H;
  repeat match type of H with
         | _ \/ _ => destruct H as [H|H]
         | False => destruct H
         end;
  symmetry in H;
  first [ now apply from_sphere | now apply from_box | now apply from_torus
        | now apply from_icosa | now apply from_default ].
Qed.

Lemma plan_nonempty (lower : string) : objects (plan_of_lower lower) <> [].
Proof.
  unfold plan_of_lower, push.
  destruct (truthy (spheres_of lower)); destruct (truthy (boxes_of lower));
  destruct (truthy (torus_of lower)); destruct (truthy (icosa_of lower));
  simpl; discriminate.
Qed.

Lemma plan_default (lower : string) :
  has lower "sphere" = false -> has lower "box" = false ->
  has lower "torus" = false -> has lower "icosa" = false ->
  plan_of_lower lower = {| objects := [default_spec] |}.
Proof.
  intros H1 H2 H3 H4. unfold plan_of_lower.
  rewrite (proj1 (spheres_count lower)), H1.
  rewrite (proj1 (boxes_count lower)), H2.
  rewrite (proj1 (torus_count lower)), H3.
  rewrite (proj1 (icosa_count lower)), H4.
  reflexivity.
Qed.

(** *** The clamp pass on the entries the planner builds *)

Lemma clamp_count_id (z : Z) :
  (1 <= z <= 200)%Z ->
  Math_min (Math_max (nullish (Some (of_Z z)) (Num 1)) (Num 1)) (Num 200) = of_Z z.
Proof.
  intros [H1 H2]. unfold nullish, of_Z, Math_max.
  change (Qle_bool 1 (inject_Z z)) with (Qle_bool (inject_Z 1) (inject_Z z)).
  rewrite Qle_bool_inject.
  assert (Z.leb 1 z = true) as -> by now apply Z.leb_le.
  unfold Math_min.
  change (Qle_bool (inject_Z z) 200) with (Qle_bool (inject_Z z) (inject_Z 200)).
  rewrite Qle_bool_inject.
  now assert (Z.leb z 200 = true) as -> by now apply Z.leb_le.
Qed.

Lemma map_fixed {A : Type} (f : A -> A) (l : list A) :
  Forall (fun a => f a = a) l -> map f l = l.
Proof.
  induction 1 as [|a l Ha _ IH]; simpl; [reflexivity|].
  now rewrite Ha, IH.
Qed.

(** A closed inequality between rational literals. *)
Ltac closed_between :=
  unfold present_between, between; repeat split; apply Qle_bool_iff; reflexivity.

Lemma built_in_ranges (lower : string) (o : ObjectSpec) :
  origin lower o -> in_ranges o /\ clamp_object o = o.
Proof.
  intros [T E|T E|T E|T E|_ _ _ _ E]; subst o.
  - destruct (proj2 (spheres_count lower) T) as (z & Hz & ->).
    unfold in_ranges, clamp_object, sphere_spec; cbn [shape count color material
      size metalness roughness motion radius].
    rewrite (clamp_count_id z Hz).
    destruct (has lower "metal"), (has lower "close");
      (split; [|reflexivity]);
      (split; [apply (between_of_Z 1 200 z Hz)|]);
      closed_between.
  - destruct (proj2 (boxes_count lower) T) as (z & Hz & ->).
    unfold in_ranges, clamp_object, box_spec; cbn [shape count color material
      size metalness roughness motion radius].
    rewrite (clamp_count_id z Hz).
    (split; [|reflexivity]);
      (split; [apply (between_of_Z 1 200 z Hz)|]);
      closed_between.
  - destruct (proj2 (torus_count lower) T) as (z & Hz & ->).
    unfold in_ranges, clamp_object, torus_spec; cbn [shape count color material
      size metalness roughness motion radius].
    rewrite (clamp_count_id z Hz).
    destruct (has lower "gold");
      (split; [|reflexivity]);
      (split; [apply (between_of_Z 1 200 z Hz)|]);
      closed_between.
  - destruct (proj2 (icosa_count lower) T) as (z & Hz & ->).
    unfold in_ranges, clamp_object, icosa_spec; cbn [shape count color material
      size metalness roughness motion radius].
    rewrite (clamp_count_id z Hz).
    (split; [|reflexivity]);
      (split; [apply (between_of_Z 1 200 z Hz)|]);
      closed_between.
  - split; [|reflexivity].
    unfold in_ranges, default_spec; cbn [count size metalness roughness radius].
    closed_between.
Qed.

End PlanFacts.

(* ================================================================== *)
(** ** The claims about the planner and the clamp pass                *)
(* ================================================================== *)

Import JSFacts PlanFacts.

(** C1, as stated, fails: in the plan compiled from the directive
    "20 red spheres orbit, 5 gold torus, add 10 blue boxes floating" no
    sphere entry has count 20 and no torus entry has count 5.  The numbers
    20 and 5 are not directly followed by white space and the keyword, so
    [(\d+)\s+sphere] and [(\d+)\s+torus] match nowhere. *)
Lemma C1_counterexample :
  ~ (exists o, In o (objects (planSceneFromTextMock App_prompt)) /\
               shape o = sphere /\ num_eq (count o) (Num 20)) /\
  ~ (exists o, In o (objects (planSceneFromTextMock App_prompt)) /\
               shape o = torus /\ num_eq (count o) (Num 5)).
Proof.
  split; intros (o & Hin & Hs & Hc); vm_compute in Hin;
    repeat match type of Hin with
           | _ \/ _ => destruct Hin as [Hin|Hin]
           | False => destruct Hin
           end;
    subst o; try discriminate Hs; vm_compute in Hc; discriminate Hc.
Qed.

(** C1 (amended): the directive "20 red spheres orbit, 5 gold torus, add 10
    blue boxes floating" compiles to exactly three entries: a sphere entry
    with count 5, color "tomato", motion orbit; a box entry with count 10,
    color "deepskyblue", motion float; a torus entry with count 3, color
    "#d4af37", metalness 1, motion orbit.  The counts are the implicit
    defaults of the three categories. *)
Theorem C1_prompt_plan :
  planSceneFromTextMock
    "20 red spheres orbit, 5 gold torus, add 10 blue boxes floating" =
  {| objects :=
       [ {| shape := sphere; count := Num 5; color := Some "tomato";
            material := Some standard; size := Some (Num 0.06);
            metalness := Some (Num 0.2); roughness := Some (Num 0.6);
            motion := Some orbit; radius := Some (Num 1.2) |};
         {| shape := box; count := Num 10; color := Some "deepskyblue";
            material := Some standard; size := Some (Num 0.08);
            metalness := Some (Num 0.1); roughness := Some (Num 0.8);
            motion := Some float; radius := Some (Num 1.0) |};
         {| shape := torus; count := Num 3; color := Some "#d4af37";
            material := Some standard; size := Some (Num 0.12);
            metalness := Some (Num 1); roughness := Some (Num 0.2);
            motion := Some orbit; radius := Some (Num 1.4) |} ] |}.
Proof. vm_compute. reflexivity. Qed.

(** C7: for every input text the compiled plan is non-empty; when the
    lowercased text contains none of the category keywords "sphere", "box",
    "torus", "icosa", the plan is exactly the one default entry (sphere,
    count 10, color "#9cf", motion orbit); this is so for the empty string.
    The planner is a total function: it has no failure to return. *)
Theorem C7_plan_nonempty_default (input : string) :
  objects (planSceneFromTextMock input) <> [] /\
  (has (toLowerCase input) "sphere" = false ->
   has (toLowerCase input) "box" = false ->
   has (toLowerCase input) "torus" = false ->
   has (toLowerCase input) "icosa" = false ->
   planSceneFromTextMock input = {| objects := [default_spec] |}) /\
  planSceneFromTextMock "" = {| objects := [default_spec] |} /\
  shape default_spec = sphere /\ count default_spec = Num 10 /\
  color default_spec = Some "#9cf" /\ motion default_spec = Some orbit.
Proof.
  split; [apply plan_nonempty|].
  split; [apply plan_default|].
  repeat split.
Qed.

(** C7 on a text that names no category the planner knows. *)
Lemma C7_witness :
  has (toLowerCase "Seven TORI, please") "sphere" = false /\
  has (toLowerCase "Seven TORI, please") "box" = false /\
  has (toLowerCase "Seven TORI, please") "torus" = false /\
  has (toLowerCase "Seven TORI, please") "icosa" = false /\
  planSceneFromTextMock "Seven TORI, please" = {| objects := [default_spec] |}.
Proof.
  repeat (split; [reflexivity|]).
  apply (proj1 (proj2 (C7_plan_nonempty_default "Seven TORI, please")));
    reflexivity.
Defined.

(** C8, the code at two failing inputs.  On "5 tori" the bare alternative
    [tori] of [(\d+)\s+torus|tori] matches with group 1 unset, [pick] gives
    [NaN], "torus" does not occur, and the plan is the default entry with no
    torus entry.  On "spheres and 7 spheres" the bare alternative [spheres]
    matches first, further left than "7 spheres", and the count is the
    implicit 5. *)
Theorem C8_bare_plural_alternative :
  String_match (RegExp_count "torus|tori") "5 tori" = Some None /\
  pick "5 tori" "torus|tori" (Num 0) = NaN /\
  planSceneFromTextMock "5 tori" = {| objects := [default_spec] |} /\
  pick "spheres and 7 spheres" "sphere|spheres" (Num 0) = NaN /\
  map (fun o => (shape o, count o))
      (objects (planSceneFromTextMock "spheres and 7 spheres")) =
    [(sphere, Num 5)].
Proof. repeat split; vm_compute; reflexivity. Qed.

(** What [pick] does read: a number directly in front of the keyword, cut
    at 200.  A count of zero is falsy and gives way to the implicit
    default. *)
Example explicit_counts :
  map (fun o => (shape o, count o))
      (objects (planSceneFromTextMock
                  "120 Spheres, 999 boxes, 0 icosahedra and 4 torus")) =
    [(sphere, Num 120); (box, Num 200); (torus, Num 4); (icosa, Num 6)].
Proof. vm_compute. reflexivity. Qed.

(** C9: for every input text, every entry of the compiled plan has all its
    numeric fields present and inside the ranges of the clamp pass
    (1 <= count <= 200, 0.02 <= size <= 0.4, 0.2 <= radius <= 5,
    0 <= metalness <= 1, 0 <= roughness <= 1), and the clamp pass leaves the
    compiled plan unchanged.  In particular the initial plan of [App], which
    does not go through the pass, is in range. *)
Theorem C9_compiled_plan_in_ranges (input : string) :
  Forall in_ranges (objects (planSceneFromTextMock input)) /\
  validate (planSceneFromTextMock input) = planSceneFromTextMock input /\
  applyPrompt input = planSceneFromTextMock input /\
  Forall in_ranges (objects App_plan).
Proof.
  assert (forall t, Forall (fun o => in_ranges o /\ clamp_object o = o)
                      (objects (planSceneFromTextMock t))) as H.
  { intros t. apply Forall_forall. intros o Hin.
    apply (built_in_ranges (toLowerCase t)). now apply plan_entries. }
  assert (validate (planSceneFromTextMock input) = planSceneFromTextMock input)
    as Hid.
  { unfold validate. specialize (H input).
    destruct (planSceneFromTextMock input) as [os]. cbn [objects] in *.
    f_equal. apply map_fixed.
    eapply Forall_impl; [|exact H]. now intros o [_ Ho]. }
  split; [|split; [exact Hid|split; [exact Hid|]]].
  - eapply Forall_impl; [|apply (H input)]. now intros o [Ho _].
  - eapply Forall_impl; [|apply (H App_prompt)]. now intros o [Ho _].
Qed.

(** C10, as stated, fails: the lowercase form of "red" contains "red", and
    the compiled plan has a sphere entry, the default one, whose color is
    "#9cf". *)
Lemma C10_counterexample :
  has (toLowerCase "red") "red" = true /\
  exists o, In o (objects (planSceneFromTextMock "red")) /\
            shape o = sphere /\ color o = Some "#9cf" /\
            color o <> Some "tomato".
Proof.
  split; [reflexivity|].
  exists default_spec. repeat split; [now left | discriminate].
Qed.

(** C10 (amended): the test for "red" is made on the whole lowercased input.
    For every input text whose lowercase form contains "red" and at least
    one of the category keywords "sphere", "box", "torus", "icosa", every
    sphere entry of the compiled plan has color "tomato".  (With none of the
    four keywords the plan is the default sphere entry, of color "#9cf".) *)
Theorem C10_red_is_global (input : string) (o : ObjectSpec) :
  has (toLowerCase input) "red" = true ->
  has (toLowerCase input) "sphere" || has (toLowerCase input) "box" ||
  has (toLowerCase input) "torus" || has (toLowerCase input) "icosa" = true ->
  In o (objects (planSceneFromTextMock input)) ->
  shape o = sphere ->
  color o = Some "tomato".
Proof.
  intros Hred Hkw Hin Hs. apply plan_entries in Hin.
  destruct Hin as [T E|T E|T E|T E|T1 T2 T3 T4 E]; subst o;
    try discriminate Hs.
  - unfold sphere_spec; cbn [color]. now rewrite Hred.
  - rewrite (proj1 (spheres_count _)) in T1.
    rewrite (proj1 (boxes_count _)) in T2.
    rewrite (proj1 (torus_count _)) in T3.
    rewrite (proj1 (icosa_count _)) in T4.
    rewrite T1, T2, T3, T4 in Hkw. discriminate Hkw.
Qed.

(** C10 on "spheres, red boxes": the sphere entry is tomato. *)
Lemma C10_witness :
  exists o, In o (objects (planSceneFromTextMock "spheres, red boxes")) /\
            shape o = sphere /\ color o = Some "tomato".
Proof.
  exists (sphere_spec (toLowerCase "spheres, red boxes") (Num 5)).
  assert (In (sphere_spec (toLowerCase "spheres, red boxes") (Num 5))
             (objects (planSceneFromTextMock "spheres, red boxes"))) as Hin
    by (left; reflexivity).
  split; [exact Hin|]. split; [reflexivity|].
  apply (C10_red_is_global "spheres, red boxes" _ eq_refl eq_refl Hin eq_refl).
Defined.

(** *** The clamp pass on an arbitrary plan *)

Lemma Qle_bool_false (x y : Q) : Qle_bool x y = false -> (y < x)%Q.
Proof.
  intros H. apply Qnot_le_lt. intros L.
  apply Qle_bool_iff in L. congruence.
Qed.

(** [Math.min(Math.max(v, lo), hi)] lands in [lo, hi] unless [v] is [NaN]. *)
Lemma clamp_between (lo hi : Q) (v : number) :
  (lo <= hi)%Q -> is_NaN v = false ->
  between lo hi (Math_min (Math_max v (Num lo)) (Num hi)).
Proof.
  intros Hlh Hv. destruct v as [|q]; [discriminate|].
  unfold Math_max. destruct (Qle_bool lo q) eqn:E1; unfold Math_min.
  - apply Qle_bool_iff in E1.
    destruct (Qle_bool q hi) eqn:E2; unfold between.
    + apply Qle_bool_iff in E2. auto.
    + split; [exact Hlh | apply Qle_refl].
  - destruct (Qle_bool lo hi) eqn:E2; unfold between.
    + split; [apply Qle_refl | exact Hlh].
    + apply Qle_bool_false in E2. split; [exact Hlh | apply Qle_refl].
Qed.

Lemma nullish_not_NaN (a : option number) (d : Q) :
  a <> Some NaN -> is_NaN (nullish a (Num d)) = false.
Proof.
  destruct a as [[|q]|]; simpl; auto. intros H. now contradiction H.
Qed.

Lemma clamp_object_in_ranges (o : ObjectSpec) :
  NaN_free o -> in_ranges (clamp_object o).
Proof.
  intros (Hc & Hs & Hr & Hm & Hg).
  unfold in_ranges, clamp_object;
    cbn [count size radius metalness roughness present_between].
  repeat split.
  - apply (clamp_between 1 200); [discriminate | exact Hc].
  - apply (clamp_between 0.02 0.4); [discriminate | now apply nullish_not_NaN].
  - apply (clamp_between 0.2 5); [discriminate | now apply nullish_not_NaN].
  - apply (clamp_between 0 1); [discriminate | now apply nullish_not_NaN].
  - apply (clamp_between 0 1); [discriminate | now apply nullish_not_NaN].
Qed.

(** C3, as stated, fails: [Math.max(NaN, 1)] and [Math.min(NaN, 200)] are
    [NaN], so the pass leaves a [NaN] count as it is, outside [1, 200]. *)
Lemma C3_counterexample :
  count (clamp_object NaN_count_spec) = NaN /\
  ~ Forall in_ranges (objects (validate {| objects := [NaN_count_spec] |})).
Proof.
  split; [reflexivity|]. intros H. inversion H as [|o os Ho _]; subst.
  destruct Ho as [Hc _]. exact Hc.
Qed.

(** C3 (amended): for every plan none of whose numeric fields is [NaN],
    every entry produced by the clamp pass has all five numeric fields
    present, with 1 <= count <= 200, 0.02 <= size <= 0.4,
    0.2 <= radius <= 5, 0 <= metalness <= 1 and 0 <= roughness <= 1; a
    missing field is replaced by its default (size 0.06, radius 1.2,
    metalness 0.2, roughness 0.7) before it is clamped. *)
Theorem C3_clamp_ranges (plan : ScenePlan) :
  Forall NaN_free (objects plan) ->
  Forall in_ranges (objects (validate plan)) /\
  Forall (fun o =>
            (size o = None -> size (clamp_object o) = Some (Num 0.06)) /\
            (radius o = None -> radius (clamp_object o) = Some (Num 1.2)) /\
            (metalness o = None -> metalness (clamp_object o) = Some (Num 0.2)) /\
            (roughness o = None -> roughness (clamp_object o) = Some (Num 0.7)))
         (objects plan).
Proof.
  intros H. split.
  - unfold validate; cbn [objects]. apply Forall_map.
    eapply Forall_impl; [|exact H]. apply clamp_object_in_ranges.
  - apply Forall_forall. intros o _.
    unfold clamp_object; cbn [size radius metalness roughness].
    repeat split; intros ->; reflexivity.
Qed.

(** C3 on a plan whose one entry lacks fields and is far out of range. *)
Lemma C3_witness :
  Forall NaN_free [wild_spec] /\
  Forall in_ranges (objects (validate {| objects := [wild_spec] |})).
Proof.
  assert (Forall NaN_free (objects {| objects := [wild_spec] |})) as H.
  { repeat constructor; discriminate. }
  split; [exact H|].
  exact (proj1 (C3_clamp_ranges {| objects := [wild_spec] |} H)).
Defined.

(* ================================================================== *)
(** ** The claim about the tower scale                                *)
(* ================================================================== *)

(** C2, as stated, fails: for a measured height of 0 the code divides the
    desired height by 1, so the scale is the desired height, here 2, and
    not 1; for a measured height of -1 it is the negated desired height. *)
Lemma C2_counterexample :
  ~ num_eq (solve (Num 0) (Num 2)) (Num 1) /\
  ~ num_eq (solve (Num (-1)) (Num 2)) (Num 1).
Proof. split; vm_compute; discriminate. Qed.

(** C2 (amended): for every desired height h, the scale is
    h / measuredHeight when measuredHeight is not zero (so when it is
    positive), and h / 1, that is h, when measuredHeight is 0 or [NaN]; the
    scale is the constant 1 only when no model is loaded. *)
Theorem C2_scale (m h : Q) :
  (~ (m == 0)%Q -> solve (Num m) (Num h) = Num (h / m)) /\
  ((0 < m)%Q -> solve (Num m) (Num h) = Num (h / m)) /\
  ((m == 0)%Q -> solve (Num m) (Num h) = Num (h / 1) /\
                 num_eq (solve (Num m) (Num h)) (Num h)) /\
  solve NaN (Num h) = Num (h / 1) /\
  scale None (Num h) = Num 1.
Proof.
  assert (~ (m == 0)%Q -> solve (Num m) (Num h) = Num (h / m)) as Hnz.
  { intros Hm. unfold solve, scale, or_else, truthy; cbn [Vector3.y].
    destruct (Qeq_bool m 0) eqn:E.
    - apply Qeq_bool_iff in E. contradiction.
    - cbn [negb]. unfold div. now rewrite E. }
  split; [exact Hnz|]. split; [|split; [|split]].
  - intros Hm. apply Hnz. intros E. rewrite E in Hm. discriminate Hm.
  - intros Hm. unfold solve, scale, or_else, truthy; cbn [Vector3.y].
    apply Qeq_bool_iff in Hm. rewrite Hm. cbn [negb].
    split; [reflexivity|].
    unfold div, num_eq. change (Qeq_bool 1 0) with false. cbn iota.
    field.
  - reflexivity.
  - reflexivity.
Qed.

(** C2 at a model 4 units high and at a flat one, for the height 1.2. *)
Lemma C2_witness :
  (0 < 4)%Q /\ solve (Num 4) (Num 1.2) = Num (1.2 / 4) /\
  (0 == 0)%Q /\ num_eq (solve (Num 0) (Num 1.2)) (Num 1.2).
Proof.
  split; [reflexivity|].
  split; [apply (proj1 (proj2 (C2_scale 4 1.2))); reflexivity|].
  split; [reflexivity|].
  apply (proj1 (proj2 (proj2 (C2_scale 0 1.2)))). reflexivity.
Defined.

(* ================================================================== *)
(** ** The claims about the instance table and the frame callback     *)
(* ================================================================== *)

Lemma nth_error_map_seq {A : Type} (f : nat -> A) (m a i : nat) :
  (i < m)%nat -> nth_error (map f (seq a m)) i = Some (f (a + i)%nat).
Proof.
  revert a i. induction m as [|m IH]; intros a i Hi; [lia|].
  destruct i as [|i]; simpl.
  - now rewrite Nat.add_0_r.
  - rewrite IH by lia. f_equal. f_equal. lia.
Qed.

Lemma pow2_32 : (2 ^ 32 - 1 = 4294967295)%Z.
Proof. reflexivity. Qed.

Lemma pow2_53 : (2 ^ 53 - 1 = 9007199254740991)%Z.
Proof. reflexivity. Qed.

Lemma Array_from_length_map_of_Z {A : Type} (n : Z) (f : nat -> A) :
  (0 <= n <= 2 ^ 32 - 1)%Z ->
  Array_from_length_map (of_Z n) f = Some (map f (seq 0 (Z.to_nat n))).
Proof.
  rewrite pow2_32. intros Hn.
  unfold Array_from_length_map, ToLength, of_Z.
  rewrite Qfloor_Z, pow2_32, pow2_53.
  replace (Z.min (Z.max n 0) 9007199254740991) with n by lia.
  now assert ((4294967295 <? n)%Z = false) as -> by (apply Z.ltb_ge; lia).
Qed.

(** C4, as stated, fails: for a spec with count 1 and radius 0.1 the one
    entry has effectiveRadius max(0.1, 0.2) * 0.9 = 0.2 * 0.9, not
    0.1 * (0.9 + (0 mod 5) * 0.02) = 0.1 * 0.9. *)
Lemma C4_counterexample :
  exists it,
    instances sin_poly (spec_of (Num 1) (Some (Num 0.1))) (Num 1) = Some [it] /\
    num_eq (Instance.r it) (mul (Num 0.2) (Num 0.9)) /\
    ~ num_eq (Instance.r it)
        (mul (Num 0.1) (add (Num 0.9) (mul (rem 0 5) (Num 0.02)))).
Proof.
  eexists. split; [reflexivity|]. split; vm_compute; [reflexivity|discriminate].
Qed.

(** C4 (amended): for every ObjectSpec whose count is a whole number n with
    1 <= n <= 2^32 - 1 and every integer seed, the instance table is a
    sequence of length exactly n whose entry at index i has
    angleOffset = ((i + seed) / count) * PI * 2, which is numerically
    ((i + seed) / count) * (2 * PI), speedFactor = 0.4 + (i mod 7) * 0.03 and
    effectiveRadius = max(spec.radius ?? 1.2, 0.2) * (0.9 + (i mod 5) * 0.02),
    which is spec.radius * (0.9 + (i mod 5) * 0.02) when the radius is
    present and at least 0.2.  The table is a function of the count, the
    radius and the seed: two specs that agree on count and radius have the
    same table for the same seed. *)
Theorem C4_instance_table (Math_sin : number -> number) (spec : ObjectSpec)
  (n seed : Z) :
  count spec = of_Z n -> (1 <= n <= 2 ^ 32 - 1)%Z ->
  (exists items,
     instances Math_sin spec (of_Z seed) = Some items /\
     Z.of_nat (List.length items) = n /\
     forall i, (Z.of_nat i < n)%Z ->
       exists it,
         nth_error items i = Some it /\
         Instance.ang it =
           mul (mul (div (add (of_nat i) (of_Z seed)) (count spec)) Math_PI) (Num 2) /\
         num_eq (Instance.ang it)
           (mul (div (add (of_nat i) (of_Z seed)) (count spec))
                (mul (Num 2) Math_PI)) /\
         Instance.speed it = add (Num 0.4) (mul (rem i 7) (Num 0.03)) /\
         Instance.r it =
           mul (Math_max (nullish (radius spec) (Num 1.2)) (Num 0.2))
               (add (Num 0.9) (mul (rem i 5) (Num 0.02))) /\
         (forall rho, radius spec = Some (Num rho) -> (0.2 <= rho)%Q ->
            Instance.r it =
              mul (Num rho) (add (Num 0.9) (mul (rem i 5) (Num 0.02))))) /\
  (forall spec' s, count spec' = count spec -> radius spec' = radius spec ->
     instances Math_sin spec' s = instances Math_sin spec s).
Proof.
  intros Hc Hn. split.
  - unfold instances. rewrite Hc.
    rewrite Array_from_length_map_of_Z by lia.
    eexists. split; [reflexivity|]. split.
    + rewrite length_map, length_seq. lia.
    + intros i Hi. eexists. split.
      * rewrite nth_error_map_seq by lia. reflexivity.
      * cbn [Instance.ang Instance.speed Instance.r Nat.add].
        split; [reflexivity|]. split; [|split; [reflexivity|split; [reflexivity|]]].
        -- unfold of_nat, of_Z, add, div, Math_PI.
           assert (Qeq_bool (inject_Z n) 0 = false) as ->.
           { apply not_true_is_false. intros E. apply Qeq_bool_iff in E.
             unfold Qeq in E. simpl in E. lia. }
           unfold mul, num_eq. ring.
        -- intros rho -> Hrho. unfold nullish, Math_max.
           apply Qle_bool_iff in Hrho. now rewrite Hrho.
  - intros spec' s Hc' Hr'. unfold instances. now rewrite Hc', Hr'.
Qed.

(** C4 on three instances of radius 1.4 with the seed of the first entry. *)
Lemma C4_witness :
  count (spec_of (Num 3) (Some (Num 1.4))) = of_Z 3 /\
  (1 <= 3 <= 2 ^ 32 - 1)%Z /\
  exists items,
    instances sin_poly (spec_of (Num 3) (Some (Num 1.4))) (of_Z 7) = Some items /\
    Z.of_nat (List.length items) = 3%Z.
Proof.
  assert (1 <= 3 <= 2 ^ 32 - 1)%Z as Hb by (rewrite pow2_32; lia).
  split; [reflexivity|]. split; [exact Hb|].
  destruct (proj1 (C4_instance_table sin_poly (spec_of (Num 3) (Some (Num 1.4)))
                     3 7 eq_refl Hb))
    as (items & Hi & Hl & _).
  exists items. split; assumption.
Defined.

(** C5, as stated, fails: for count 1, radius 1.2 and seed 0 the one entry
    has effectiveRadius 1.2 * 0.9 = 1.08, not 1.2. *)
Lemma C5_counterexample :
  ~ (exists it,
       instances sin_poly (spec_of (Num 1) (Some (Num 1.2))) (Num 0) = Some [it] /\
       num_eq (Instance.ang it) (Num 0) /\
       num_eq (Instance.r it) (Num 1.2)).
Proof.
  intros (it & H & _ & Hr). vm_compute in H. inversion H; subst it.
  vm_compute in Hr. discriminate Hr.
Qed.

(** C5 (amended): for a spec with count 1 and radius 1.2, with seed 0, the
    instance table has exactly one entry, and that entry has
    angleOffset = 0 and effectiveRadius = 1.2 * 0.9 = 1.08. *)
Theorem C5_single_instance (Math_sin : number -> number) (spec : ObjectSpec) :
  count spec = Num 1 -> radius spec = Some (Num 1.2) ->
  exists it,
    instances Math_sin spec (Num 0) = Some [it] /\
    num_eq (Instance.ang it) (Num 0) /\
    num_eq (Instance.r it) (Num 1.08).
Proof.
  intros Hc Hr. unfold instances. rewrite Hc, Hr.
  eexists. split; [reflexivity|].
  cbn [Instance.ang Instance.r]. split; vm_compute; reflexivity.
Qed.

(** C5 on the spec of the scenario. *)
Lemma C5_witness :
  count (spec_of (Num 1) (Some (Num 1.2))) = Num 1 /\
  radius (spec_of (Num 1) (Some (Num 1.2))) = Some (Num 1.2) /\
  exists it,
    instances sin_poly (spec_of (Num 1) (Some (Num 1.2))) (Num 0) = Some [it] /\
    num_eq (Instance.ang it) (Num 0) /\
    num_eq (Instance.r it) (Num 1.08).
Proof.
  split; [reflexivity|]. split; [reflexivity|].
  exact (C5_single_instance sin_poly (spec_of (Num 1) (Some (Num 1.2)))
           eq_refl eq_refl).
Defined.

Section Frames.

Variable Math_sin : number -> number.
Variable Math_cos : number -> number.
Variable spec : ObjectSpec.
Variable insts : list Instance.t.

Lemma forEach_from_nth (f : nat -> Object3D -> Object3D) (children : list Object3D)
  (a i : nat) :
  nth_error (forEach_from f a children) i =
  option_map (f (a + i)%nat) (nth_error children i).
Proof.
  revert a i. induction children as [|obj rest IH]; intros a i.
  - now destruct i.
  - destruct i as [|i]; simpl.
    + now rewrite Nat.add_0_r.
    + rewrite IH. now replace (S a + i)%nat with (a + S i)%nat by lia.
Qed.

(** A frame keeps every child and updates it with its own clock reading. *)
Lemma child_onFrame (group : option (list Object3D)) (f : Frame) (i : nat)
  (obj : Object3D) :
  child group i = Some obj ->
  child (onFrame Math_sin Math_cos spec insts group f) i =
  Some (update_child Math_sin Math_cos spec insts (now_at f i) (delta f) i obj).
Proof.
  destruct group as [children|]; simpl; [|discriminate].
  intros H. now rewrite forEach_from_nth, H.
Qed.

Lemma child_run (frames : list Frame) (group : option (list Object3D)) (i : nat) :
  child group i <> None ->
  child (run Math_sin Math_cos spec insts group frames) i <> None.
Proof.
  revert group. induction frames as [|f frames IH]; intros group H; [exact H|].
  simpl. apply IH.
  destruct (child group i) as [obj|] eqn:E; [|congruence].
  now rewrite (child_onFrame group f i obj E).
Qed.

Lemma run_last (frames : list Frame) (f : Frame) (group : option (list Object3D)) :
  run Math_sin Math_cos spec insts group (frames ++ [f]) =
  onFrame Math_sin Math_cos spec insts
    (run Math_sin Math_cos spec insts group frames) f.
Proof. unfold run. now rewrite fold_left_app. Qed.

End Frames.

(** C6: for motion = orbit, the position of an instance after a frame whose
    clock reading is T is
    (cos(angle) * effectiveRadius, baseHeight, sin(angle) * effectiveRadius)
    with angle = angleOffset + speedFactor * T * 0.00015.  It is a function
    of the instance layout and T alone: two runs, from any two groups that
    have child i, through any two histories of frames (any number of frames,
    any clock readings and frame deltas), whose last frame reads the clock
    at T for child i, leave child i at the same position. *)
Theorem C6_orbit_position (Math_sin Math_cos : number -> number)
  (spec : ObjectSpec) (insts : list Instance.t) (i : nat) (it : Instance.t)
  (T : number) (group1 group2 : option (list Object3D))
  (history1 history2 : list Frame) (last1 last2 : Frame) :
  motion spec = Some orbit ->
  nth_error insts i = Some it ->
  child group1 i <> None -> child group2 i <> None ->
  now_at last1 i = T -> now_at last2 i = T ->
  exists obj1 obj2,
    child (run Math_sin Math_cos spec insts group1 (history1 ++ [last1])) i = Some obj1 /\
    child (run Math_sin Math_cos spec insts group2 (history2 ++ [last2])) i = Some obj2 /\
    position obj1 =
      (let angle := add (Instance.ang it)
                        (mul (mul (Instance.speed it) T) (Num 0.00015)) in
       {| Vector3.x := mul (Math_cos angle) (Instance.r it);
          Vector3.y := Instance.y it;
          Vector3.z := mul (Math_sin angle) (Instance.r it) |}) /\
    position obj2 = position obj1.
Proof.
  intros Hm Hit H1 H2 T1 T2.
  pose proof (child_run Math_sin Math_cos spec insts history1 group1 i H1) as R1.
  pose proof (child_run Math_sin Math_cos spec insts history2 group2 i H2) as R2.
  destruct (child (run Math_sin Math_cos spec insts group1 history1) i)
    as [o1|] eqn:E1; [|congruence].
  destruct (child (run Math_sin Math_cos spec insts group2 history2) i)
    as [o2|] eqn:E2; [|congruence].
  eexists. eexists.
  rewrite !run_last.
  rewrite (child_onFrame _ _ _ _ _ _ _ o1 E1), (child_onFrame _ _ _ _ _ _ _ o2 E2).
  split; [reflexivity|]. split; [reflexivity|].
  unfold update_child, orbit_angle. rewrite Hit, Hm, T1, T2.
  split; reflexivity.
Qed.

(** C6 on one orbiting child: three frames of about 16 ms against two
    frames of 500 ms, both ending at the clock reading 1000.  The positions
    agree; the rotations, which add up the frame deltas, do not. *)
Lemma C6_witness :
  exists obj1 obj2,
    child (run sin_poly cos_poly (spec_of (Num 1) None) [one_instance]
             (Some [origin_object])
             ([frame_at 16 0.016; frame_at 33 0.017] ++ [frame_at 1000 0.016])) 0
      = Some obj1 /\
    child (run sin_poly cos_poly (spec_of (Num 1) None) [one_instance]
             (Some [origin_object])
             ([frame_at 500 0.5] ++ [frame_at 1000 0.5])) 0
      = Some obj2 /\
    position obj2 = position obj1 /\
    rotation obj2 <> rotation obj1.
Proof.
  destruct (C6_orbit_position sin_poly cos_poly (spec_of (Num 1) None)
              [one_instance] 0 one_instance (Num 1000)
              (Some [origin_object]) (Some [origin_object])
              [frame_at 16 0.016; frame_at 33 0.017] [frame_at 500 0.5]
              (frame_at 1000 0.016) (frame_at 1000 0.5)
              eq_refl eq_refl
              ltac:(discriminate) ltac:(discriminate) eq_refl eq_refl)
    as (obj1 & obj2 & E1 & E2 & _ & Hp).
  exists obj1, obj2. repeat split; try assumption.
  vm_compute in E1. vm_compute in E2.
  inversion E1; subst obj1. inversion E2; subst obj2.
  discriminate.
Defined.

(* ================================================================== *)
(** ** Further properties of the planner                              *)
(* ================================================================== *)

Lemma toLowerCase_unit_idem (c : ascii) :
  toLowerCase_unit (toLowerCase_unit c) = toLowerCase_unit c.
Proof. destruct c as [[] [] [] [] [] [] [] []]; reflexivity. Qed.

Lemma toLowerCase_idem (s : string) : toLowerCase (toLowerCase s) = toLowerCase s.
Proof.
  induction s as [|c s IH]; simpl; [reflexivity|].
  now rewrite toLowerCase_unit_idem, IH.
Qed.

Lemma toLowerCase_app (u v : string) :
  toLowerCase (u ++ v) = (toLowerCase u ++ toLowerCase v)%string.
Proof. induction u as [|c u IH]; simpl; [reflexivity|]. now rewrite IH. Qed.

Lemma strip_prefix_app (w s r v : string) :
  strip_prefix w s = Some r -> strip_prefix w (s ++ v) = Some (r ++ v)%string.
Proof.
  revert s. induction w as [|a w IH]; intros s H; simpl in *.
  - now inversion H.
  - destruct s as [|b s]; [discriminate|]. simpl.
    destruct (Ascii.eqb a b); [now apply IH | discriminate].
Qed.

Lemma includes_earlier (w s v : string) :
  includes w s = true -> includes w (s ++ v) = true.
Proof.
  induction s as [|c s IH]; intros H.
  - simpl in H. rewrite orb_false_r in H. unfold startsWith in H.
    destruct (strip_prefix w "") as [r|] eqn:E; [|discriminate].
    apply strip_prefix_sound in E.
    destruct w; [|discriminate]. destruct v; reflexivity.
  - cbn [includes] in H. apply orb_true_iff in H.
    change (includes w (String c (s ++ v)) = true). cbn [includes].
    apply orb_true_iff. destruct H as [H|H].
    + left. unfold startsWith in *.
      destruct (strip_prefix w (String c s)) as [r|] eqn:E; [|discriminate].
      change (String c (s ++ v)) with (String c s ++ v)%string.
      now rewrite (strip_prefix_app _ _ _ v E).
    + right. now apply IH.
Qed.

Lemma has_embedded (s u v kw : string) :
  has (toLowerCase s) kw = true ->
  has (toLowerCase (u ++ s ++ v)) kw = true.
Proof.
  unfold has. intros H. rewrite !toLowerCase_app.
  apply includes_later. now apply includes_earlier.
Qed.

(** The shapes of the plan, read off the four keyword tests. *)
Lemma plan_shapes (lower : string) :
  map shape (objects (plan_of_lower lower)) =
  match named_shapes lower with
  | [] => [sphere]
  | l => l
  end.
Proof.
  unfold plan_of_lower, named_shapes, push.
  rewrite (proj1 (spheres_count lower)), (proj1 (boxes_count lower)),
    (proj1 (torus_count lower)), (proj1 (icosa_count lower)).
  destruct (has lower "sphere"), (has lower "box"), (has lower "torus"),
    (has lower "icosa"); reflexivity.
Qed.

Lemma named_shapes_NoDup (lower : string) :
  NoDup (named_shapes lower) /\ (List.length (named_shapes lower) <= 4)%nat.
Proof.
  unfold named_shapes.
  destruct (has lower "sphere"), (has lower "box"), (has lower "torus"),
    (has lower "icosa"); simpl; (split; [|lia]);
    repeat constructor; simpl; intuition discriminate.
Qed.

(** Each entry of a compiled plan has a whole count from 1 to 200. *)
Lemma origin_count (lower : string) (o : ObjectSpec) :
  origin lower o -> exists z, (1 <= z <= 200)%Z /\ count o = of_Z z.
Proof.
  intros [T E|T E|T E|T E|_ _ _ _ E]; subst o.
  - destruct (proj2 (spheres_count lower) T) as (z & Hz & Hc). now exists z.
  - destruct (proj2 (boxes_count lower) T) as (z & Hz & Hc). now exists z.
  - destruct (proj2 (torus_count lower) T) as (z & Hz & Hc). now exists z.
  - destruct (proj2 (icosa_count lower) T) as (z & Hz & Hc). now exists z.
  - exists 10%Z. split; [lia | reflexivity].
Qed.

(** X1: the plan lists the categories whose keyword ("sphere", "box",
    "torus", "icosa") occurs in the lowercased text, each once and in that
    fixed order; when none occurs it lists the one default sphere.  So a
    plan has between one and four entries and no shape twice. *)
Theorem plan_lists_named_categories (input : string) :
  map shape (objects (planSceneFromTextMock input)) =
    match named_shapes (toLowerCase input) with
    | [] => [sphere]
    | l => l
    end /\
  NoDup (map shape (objects (planSceneFromTextMock input))) /\
  (1 <= List.length (objects (planSceneFromTextMock input)) <= 4)%nat.
Proof.
  unfold planSceneFromTextMock.
  pose proof (plan_shapes (toLowerCase input)) as H.
  destruct (named_shapes_NoDup (toLowerCase input)) as [Hn Hl].
  split; [exact H|].
  rewrite <- (length_map shape), H.
  destruct (named_shapes (toLowerCase input)) as [|sh l].
  - split; [repeat constructor; intros []|simpl; lia].
  - split; [exact Hn|simpl in *; lia].
Qed.

(** X2: the plan depends on the text only up to letter case: a text and its
    lowercase form compile to the same plan. *)
Theorem plan_ignores_case (input : string) :
  planSceneFromTextMock (toLowerCase input) = planSceneFromTextMock input.
Proof. unfold planSceneFromTextMock. now rewrite toLowerCase_idem. Qed.

(** X3: every entry of a compiled plan has a count that is a whole number
    from 1 to 200. *)
Theorem plan_counts_whole (input : string) (o : ObjectSpec) :
  In o (objects (planSceneFromTextMock input)) ->
  exists z, (1 <= z <= 200)%Z /\ count o = of_Z z.
Proof. intros H. apply plan_entries in H. now apply origin_count in H. Qed.

(** X3 on the first entry of the initial plan. *)
Lemma plan_counts_whole_witness :
  exists z, (1 <= z <= 200)%Z /\
            count (sphere_spec (toLowerCase App_prompt) (Num 5)) = of_Z z.
Proof.
  apply (plan_counts_whole App_prompt). left. reflexivity.
Defined.

(** X4: the planner never chooses the basic material, chooses toon only for
    boxes, and leaves only spheres without motion; color, material and
    motion are present in every entry. *)
Theorem plan_style_fields (input : string) (o : ObjectSpec) :
  In o (objects (planSceneFromTextMock input)) ->
  color o <> None /\
  material o <> Some basic /\
  (material o = Some standard \/ (material o = Some toon /\ shape o = box)) /\
  (motion o = Some orbit \/ motion o = Some float \/
   (motion o = Some none /\ shape o = sphere)).
Proof.
  intros H. apply plan_entries in H.
  destruct H as [T E|T E|T E|T E|_ _ _ _ E]; subst o;
    unfold sphere_spec, box_spec, torus_spec, icosa_spec, default_spec;
    cbn [color material motion shape];
    repeat match goal with
           | |- context [if ?b then _ else _] => destruct b
           end;
    repeat split; try discriminate; auto.
Qed.

(** X4 on the box entry of "toon boxes". *)
Lemma plan_style_fields_witness :
  material (box_spec (toLowerCase "toon boxes") (Num 10)) = Some toon /\
  shape (box_spec (toLowerCase "toon boxes") (Num 10)) = box.
Proof.
  destruct (plan_style_fields "toon boxes"
              (box_spec (toLowerCase "toon boxes") (Num 10)))
    as (_ & _ & [H|H] & _).
  - left. reflexivity.
  - discriminate H.
  - exact H.
Defined.

(** X5: the categories a text names stay in the plan when the text is put
    inside a longer one: every category named by [s] has an entry in the
    plan of [u ++ s ++ v]. *)
Theorem plan_keeps_named_categories (s u v : string) (sh : Shape) :
  In sh (named_shapes (toLowerCase s)) ->
  exists o, In o (objects (planSceneFromTextMock (u ++ s ++ v))) /\ shape o = sh.
Proof.
  intros H.
  assert (In sh (named_shapes (toLowerCase (u ++ s ++ v)))) as H'.
  { unfold named_shapes in *.
    repeat (apply in_app_or in H; destruct H as [H|H]);
      match type of H with
      | In _ (if has _ ?kw then _ else _) =>
          destruct (has (toLowerCase s) kw) eqn:E; [|destruct H];
          rewrite !in_app_iff; rewrite (has_embedded s u v kw E)
      end; auto. }
  pose proof (plan_shapes (toLowerCase (u ++ s ++ v))) as P.
  fold (planSceneFromTextMock (u ++ s ++ v)) in P.
  assert (In sh (map shape (objects (planSceneFromTextMock (u ++ s ++ v))))) as Hin.
  { rewrite P. destruct (named_shapes (toLowerCase (u ++ s ++ v)));
      [destruct H' | exact H']. }
  apply in_map_iff in Hin. destruct Hin as (o & Ho & Hin). now exists o.
Qed.

(** X5 for "gold torus" inside a longer directive. *)
Lemma plan_keeps_named_categories_witness :
  In torus (named_shapes (toLowerCase "gold torus")) /\
  exists o, In o (objects (planSceneFromTextMock
                             ("please add a " ++ "gold torus" ++ " and 3 boxes"))) /\
            shape o = torus.
Proof.
  assert (In torus (named_shapes (toLowerCase "gold torus"))) as H
    by (left; reflexivity).
  split; [exact H|].
  exact (plan_keeps_named_categories "gold torus" "please add a " " and 3 boxes"
           torus H).
Defined.

Lemma Math_min_of_Z (v : Z) : Math_min (of_Z v) (Num 200) = of_Z (Z.min v 200).
Proof.
  unfold Math_min, of_Z.
  change (Qle_bool (inject_Z v) 200) with (Qle_bool (inject_Z v) (inject_Z 200)).
  rewrite Qle_bool_inject. destruct (Z.leb v 200) eqn:L.
  - apply Z.leb_le in L. now rewrite Z.min_l.
  - apply Z.leb_gt in L. rewrite Z.min_r by lia. reflexivity.
Qed.

(** X6: when the lowercased text is [pre], a run of digits [d], white space,
    the keyword [a] and a rest, where [pre] has no digit and the second
    keyword form [b] begins nowhere in [pre], the count of the category is
    the value of [d] cut at 200, or the implicit default [dflt] when that
    value is zero. *)
Theorem explicit_count_is_read (kw a b pre d w rest : string) (dflt : Z) :
  RegExp_count kw = count_re a b ->
  all (fun c => negb (isDigit c)) pre = true ->
  (forall u v, pre = u ++ v -> v <> "" ->
     startsWith b (v ++ d ++ w ++ a ++ rest) = false)%string ->
  d <> "" -> all isDigit d = true ->
  w <> "" -> all isSpace w = true ->
  a <> "" -> starts_outside isSpace a ->
  or_else (pick (pre ++ d ++ w ++ a ++ rest) kw (Num 0))
          (if has (pre ++ d ++ w ++ a ++ rest) a then of_Z dflt else Num 0) =
  if (fst (digits_value 0 false d) =? 0)%Z then of_Z dflt
  else of_Z (Z.min (fst (digits_value 0 false d)) 200).
Proof.
  intros Hre Hpre Hb Hd1 Hd2 Hw1 Hw2 Ha1 Ha2.
  rewrite (pick_reads_count kw a b pre d w rest) by assumption.
  rewrite Math_min_of_Z. unfold or_else. rewrite truthy_of_Z.
  destruct (digits_value 0 false d) as [v seen] eqn:E. cbn [fst].
  pose proof (digits_value_nonneg _ _ _ _ _ E ltac:(lia)) as Hv.
  assert (has (pre ++ d ++ w ++ a ++ rest) a = true) as ->.
  { unfold has. apply includes_later. apply includes_inside. }
  destruct (Z.eqb v 0) eqn:V.
  - apply Z.eqb_eq in V. subst v. reflexivity.
  - apply Z.eqb_neq in V.
    assert (Z.eqb (Z.min v 200) 0 = false) as -> by (apply Z.eqb_neq; lia).
    reflexivity.
Qed.

(** X6 on "add 250 boxes" and on "add 0 boxes". *)
Lemma explicit_count_is_read_witness :
  boxes_of "add 250 boxes" = Num 200 /\ boxes_of "add 0 boxes" = Num 10.
Proof.
  assert (forall d u v : string, "add " = u ++ v -> v <> "" ->
            startsWith "boxes" (v ++ d ++ " " ++ "box" ++ "es") = false)%string
    as Hb.
  { intros d u v E Hv.
    destruct u as [|c1 [|c2 [|c3 [|c4 [|c5 u]]]]]; simpl in E; inversion E; subst;
      try reflexivity; congruence. }
  split.
  - exact (explicit_count_is_read "box|boxes" "box" "boxes" "add " "250" " " "es"
             10 RegExp_count_box eq_refl (Hb "250")
             ltac:(discriminate) eq_refl ltac:(discriminate) eq_refl
             ltac:(discriminate) eq_refl).
  - exact (explicit_count_is_read "box|boxes" "box" "boxes" "add " "0" " " "es"
             10 RegExp_count_box eq_refl (Hb "0")
             ltac:(discriminate) eq_refl ltac:(discriminate) eq_refl
             ltac:(discriminate) eq_refl).
Defined.

Lemma String_match_bare (a b pre rest : string) :
  all (fun c => negb (isDigit c)) pre = true ->
  b <> "" -> starts_outside isDigit b ->
  String_match (count_re a b) (pre ++ b ++ rest) = Some None.
Proof.
  intros Hpre Hb1 Hb2. induction pre as [|c pre IH].
  - destruct b as [|c b]; [congruence|]. simpl in Hb2.
    change (String_match (count_re a (String c b)) (String c (b ++ rest)) = Some None).
    cbn [String_match]. unfold count_re, m_alt, m_seq, m_group, m_plus, m_lit.
    rewrite Hb2.
    change (String c (b ++ rest)) with (String c b ++ rest)%string.
    now rewrite strip_prefix_complete.
  - simpl in Hpre. apply andb_true_iff in Hpre. destruct Hpre as [Hc Hpre].
    apply negb_true_iff in Hc.
    change (String_match (count_re a b) (String c (pre ++ b ++ rest)) = Some None).
    cbn [String_match]. unfold count_re, m_alt, m_seq, m_group, m_plus, m_lit.
    rewrite Hc.
    destruct (strip_prefix b (String c (pre ++ b ++ rest))); [reflexivity|].
    apply IH. exact Hpre.
Qed.

(** X7: when the second keyword form [b] (the plural) stands in the
    lowercased text before any digit, [pick] is [NaN] whatever follows, and
    the count of the category is the implicit default if the first keyword
    form occurs in the text, and zero (no entry) otherwise. *)
Theorem bare_form_hides_count (kw a b pre rest : string) (dflt : Z) :
  RegExp_count kw = count_re a b ->
  all (fun c => negb (isDigit c)) pre = true ->
  b <> "" -> starts_outside isDigit b ->
  pick (pre ++ b ++ rest) kw (Num 0) = NaN /\
  or_else (pick (pre ++ b ++ rest) kw (Num 0))
          (if has (pre ++ b ++ rest) a then of_Z dflt else Num 0) =
  (if has (pre ++ b ++ rest) a then of_Z dflt else Num 0).
Proof.
  intros Hre Hpre Hb1 Hb2.
  assert (pick (pre ++ b ++ rest) kw (Num 0) = NaN) as Hp.
  { unfold pick. rewrite Hre, String_match_bare by assumption. reflexivity. }
  split; [exact Hp|]. now rewrite Hp.
Qed.

(** X7 on "many tori, 8 tori": no torus is counted. *)
Lemma bare_form_hides_count_witness :
  pick "many tori, 8 tori" "torus|tori" (Num 0) = NaN /\
  torus_of "many tori, 8 tori" = Num 0.
Proof.
  exact (bare_form_hides_count "torus|tori" "torus" "tori" "many " ", 8 tori" 3
           RegExp_count_torus eq_refl ltac:(discriminate) eq_refl).
Defined.

(* ================================================================== *)
(** ** Further properties of the clamp pass                           *)
(* ================================================================== *)

Lemma Qle_bool_refl (x : Q) : Qle_bool x x = true.
Proof. apply Qle_bool_iff, Qle_refl. Qed.

(** Clamping a clamped number changes nothing. *)
Lemma clamp_twice (lo hi : Q) (v : number) :
  Qle_bool lo hi = true ->
  Math_min (Math_max (Math_min (Math_max v (Num lo)) (Num hi)) (Num lo)) (Num hi) =
  Math_min (Math_max v (Num lo)) (Num hi).
Proof.
  intros Hlh. destruct v as [|q]; [reflexivity|].
  pose proof (Qle_bool_refl lo) as Rl. pose proof (Qle_bool_refl hi) as Rh.
  cbn [Math_max]. destruct (Qle_bool lo q) eqn:E1; cbn [Math_min].
  - destruct (Qle_bool q hi) eqn:E2; cbn [Math_max].
    + rewrite E1. cbn [Math_min]. now rewrite E2.
    + rewrite Hlh. cbn [Math_min]. now rewrite Rh.
  - rewrite Hlh. cbn [Math_max]. rewrite Rl. cbn [Math_min]. now rewrite Hlh.
Qed.

(** A number inside the range is returned as it is. *)
Lemma clamp_inside (lo hi : Q) (v : number) :
  between lo hi v -> Math_min (Math_max v (Num lo)) (Num hi) = v.
Proof.
  destruct v as [|q]; [intros []|]. intros [H1 H2].
  apply Qle_bool_iff in H1. apply Qle_bool_iff in H2.
  unfold Math_max. rewrite H1. unfold Math_min. now rewrite H2.
Qed.

(** A number that is not [NaN] and comes back unchanged was inside. *)
Lemma clamp_fixed_inside (lo hi : Q) (v : number) :
  (lo <= hi)%Q -> is_NaN v = false ->
  Math_min (Math_max v (Num lo)) (Num hi) = v -> between lo hi v.
Proof.
  intros Hlh Hv E. rewrite <- E. now apply clamp_between.
Qed.

Lemma clamp_object_twice (o : ObjectSpec) :
  clamp_object (clamp_object o) = clamp_object o.
Proof.
  unfold clamp_object;
    cbn [shape count color material size metalness roughness motion radius nullish].
  f_equal; try (f_equal; now apply clamp_twice).
  now apply clamp_twice.
Qed.

(** X8: the clamp pass is idempotent: applying it to its own result changes
    nothing, [NaN] fields included. *)
Theorem validate_idempotent (plan : ScenePlan) :
  validate (validate plan) = validate plan.
Proof.
  unfold validate; cbn [objects]. f_equal. rewrite map_map.
  apply map_ext. apply clamp_object_twice.
Qed.

(** X9: an entry that holds no [NaN] is left unchanged by the clamp pass
    exactly when all its numeric fields are present and inside the ranges
    1..200, 0.02..0.4, 0.2..5, 0..1 and 0..1. *)
Theorem clamp_fixed_iff_in_ranges (o : ObjectSpec) :
  NaN_free o -> (clamp_object o = o <-> in_ranges o).
Proof.
  intros (Nc & Ns & Nr & Nm & Ng). split.
  - intros E.
    pose proof (f_equal count E) as Ec. pose proof (f_equal size E) as Es.
    pose proof (f_equal radius E) as Er. pose proof (f_equal metalness E) as Em.
    pose proof (f_equal roughness E) as Eg.
    unfold clamp_object in Ec, Es, Er, Em, Eg;
      cbn [count size radius metalness roughness] in Ec, Es, Er, Em, Eg.
    unfold in_ranges. repeat split.
    + apply (clamp_fixed_inside 1 200); [discriminate | exact Nc | exact Ec].
    + destruct (size o) as [v|]; [|discriminate]. cbn [nullish] in Es.
      inversion Es as [Ev]. rewrite Ev.
      apply (clamp_fixed_inside 0.02 0.4); auto; [discriminate|].
      destruct v; [now contradiction Ns | reflexivity].
    + destruct (radius o) as [v|]; [|discriminate]. cbn [nullish] in Er.
      inversion Er as [Ev]. rewrite Ev.
      apply (clamp_fixed_inside 0.2 5); auto; [discriminate|].
      destruct v; [now contradiction Nr | reflexivity].
    + destruct (metalness o) as [v|]; [|discriminate]. cbn [nullish] in Em.
      inversion Em as [Ev]. rewrite Ev.
      apply (clamp_fixed_inside 0 1); auto; [discriminate|].
      destruct v; [now contradiction Nm | reflexivity].
    + destruct (roughness o) as [v|]; [|discriminate]. cbn [nullish] in Eg.
      inversion Eg as [Ev]. rewrite Ev.
      apply (clamp_fixed_inside 0 1); auto; [discriminate|].
      destruct v; [now contradiction Ng | reflexivity].
  - intros (Hc & Hs & Hr & Hm & Hg).
    destruct o as [sh c col mat s m g mo r];
      cbn [count size radius metalness roughness] in *.
    destruct s as [s|]; [|destruct Hs]. destruct r as [r|]; [|destruct Hr].
    destruct m as [m|]; [|destruct Hm]. destruct g as [g|]; [|destruct Hg].
    unfold clamp_object;
      cbn [shape count color material size metalness roughness motion radius
           nullish present_between] in *.
    now rewrite (clamp_inside 1 200 c Hc), (clamp_inside 0.02 0.4 s Hs),
      (clamp_inside 0.2 5 r Hr), (clamp_inside 0 1 m Hm), (clamp_inside 0 1 g Hg).
Qed.

(** X9 on the default entry, which is in range, and on the wild one, which
    the pass changes. *)
Lemma clamp_fixed_iff_in_ranges_witness :
  clamp_object default_spec = default_spec /\ ~ in_ranges wild_spec.
Proof.
  assert (NaN_free default_spec) as Hd by (repeat split; discriminate).
  assert (NaN_free wild_spec) as Hw by (repeat split; discriminate).
  split.
  - apply (proj2 (clamp_fixed_iff_in_ranges default_spec Hd)).
    unfold in_ranges, default_spec, present_between, between;
      cbn [count size radius metalness roughness].
    repeat split; apply Qle_bool_iff; reflexivity.
  - intros H. apply (proj2 (clamp_fixed_iff_in_ranges wild_spec Hw)) in H.
    apply (f_equal count) in H. vm_compute in H. discriminate H.
Defined.

(* ================================================================== *)
(** ** Further properties of the instance table                       *)
(* ================================================================== *)



Lemma Qfloor_below_one (q : Q) : (q < 1)%Q -> (Qfloor q <= 0)%Z.
Proof.
  intros H. pose proof (Qfloor_le q) as L.
  assert (inject_Z (Qfloor q) < inject_Z 1)%Q as L'
    by (eapply Qle_lt_trans; [exact L | exact H]).
  rewrite <- Zlt_Qlt in L'. lia.
Qed.

(** X10: how the count decides the table.  A count that is [NaN] or below 1
    gives the empty table; a count from 1 up to, but excluding, 2^32 gives
    a table of floor(count) entries; a count of 2^32 or more gives no table
    (the [RangeError] of the array constructor). *)
Theorem instances_by_count (Math_sin : number -> number) (spec : ObjectSpec)
  (seed : number) :
  (count spec = NaN -> instances Math_sin spec seed = Some []) /\
  (forall q, count spec = Num q -> (q < 1)%Q ->
     instances Math_sin spec seed = Some []) /\
  (forall q, count spec = Num q -> (1 <= q)%Q -> (q < inject_Z (2 ^ 32))%Q ->
     exists items, instances Math_sin spec seed = Some items /\
                   List.length items = Z.to_nat (Qfloor q)) /\
  (forall q, count spec = Num q -> (inject_Z (2 ^ 32) <= q)%Q ->
     instances Math_sin spec seed = None).
Proof.
  unfold instances, Array_from_length_map. repeat split.
  - intros ->. reflexivity.
  - intros q -> Hq. unfold ToLength.
    pose proof (Qfloor_below_one q Hq) as F. rewrite pow2_32, pow2_53.
    replace (Z.min (Z.max (Qfloor q) 0) 9007199254740991) with 0%Z by lia.
    reflexivity.
  - intros q -> H1 H2. unfold ToLength.
    assert (1 <= Qfloor q)%Z as F1.
    { rewrite <- (Qfloor_Z 1). now apply Qfloor_resp_le. }
    assert (Qfloor q < 2 ^ 32)%Z as F2.
    { rewrite Zlt_Qlt. eapply Qle_lt_trans; [apply Qfloor_le | exact H2]. }
    rewrite pow2_53. change (2 ^ 32)%Z with 4294967296%Z in *.
    replace (Z.min (Z.max (Qfloor q) 0) 9007199254740991) with (Qfloor q) by lia.
    assert ((4294967296 - 1 <? Qfloor q)%Z = false) as ->
      by (apply Z.ltb_ge; lia).
    eexists. split; [reflexivity|]. now rewrite length_map, length_seq.
  - intros q -> H. unfold ToLength.
    assert (2 ^ 32 <= Qfloor q)%Z as F.
    { rewrite <- (Qfloor_Z (2 ^ 32)). now apply Qfloor_resp_le. }
    rewrite pow2_53. change (2 ^ 32)%Z with 4294967296%Z in *.
    now assert ((4294967296 - 1 <?
                 Z.min (Z.max (Qfloor q) 0) 9007199254740991)%Z = true) as ->
      by (apply Z.ltb_lt; lia).
Qed.

(** X10 on the counts 0.5, 2.5 and 2^32. *)
Lemma instances_by_count_witness :
  instances sin_poly (spec_of (Num 0.5) None) (Num 7) = Some [] /\
  (exists items, instances sin_poly (spec_of (Num 2.5) None) (Num 7) = Some items /\
                 List.length items = 2%nat) /\
  instances sin_poly (spec_of (Num 4294967296) None) (Num 7) = None.
Proof.
  split; [|split].
  - apply (proj1 (proj2 (instances_by_count sin_poly (spec_of (Num 0.5) None)
                           (Num 7))) 0.5%Q eq_refl).
    reflexivity.
  - apply (proj1 (proj2 (proj2 (instances_by_count sin_poly
                                   (spec_of (Num 2.5) None) (Num 7))))
             2.5%Q eq_refl).
    + discriminate.
    + reflexivity.
  - apply (proj2 (proj2 (proj2 (instances_by_count sin_poly
                                   (spec_of (Num 4294967296) None) (Num 7))))
             4294967296%Q eq_refl).
    discriminate.
Defined.

(** The tables of a list of entries with whole counts from 1 to 200, each
    with the seed of its index. *)
Lemma tables_of_whole_counts (Math_sin : number -> number) (os : list ObjectSpec)
  (i : nat) :
  Forall (fun o => exists z, (1 <= z <= 200)%Z /\ count o = of_Z z) os ->
  exists tables,
    Forall2 (fun p items =>
               instances Math_sin (fst p) (snd p) = Some items /\
               count (fst p) = of_nat (List.length items))
            (map_index (fun spec i => (spec, SharedScene_seed i)) i os) tables /\
    (List.length (concat tables) <= 200 * List.length os)%nat.
Proof.
  intros H. revert i. induction H as [|o os (z & Hz & Hc) _ IH]; intros i.
  - exists []. split; [constructor | simpl; lia].
  - destruct (IH (S i)) as (tables & HF & HL).
    assert (instances Math_sin o (SharedScene_seed i) =
            Some (map (fun j =>
              {| Instance.ang :=
                   mul (mul (div (add (of_nat j) (SharedScene_seed i)) (count o))
                            Math_PI) (Num 2);
                 Instance.y :=
                   add (mul (add (mul (Math_sin (add (mul (of_nat j) (Num 12.9898))
                                                     (SharedScene_seed i)))
                                      (Num 0.5)) (Num 0.5)) (Num 0.6)) (Num 0.2);
                 Instance.speed := add (Num 0.4) (mul (rem j 7) (Num 0.03));
                 Instance.r :=
                   mul (Math_max (nullish (radius o) (Num 1.2)) (Num 0.2))
                       (add (Num 0.9) (mul (rem j 5) (Num 0.02))) |})
              (seq 0 (Z.to_nat z)))) as E.
    { unfold instances. rewrite Hc.
      rewrite Array_from_length_map_of_Z by (rewrite pow2_32; lia).
      now rewrite <- Hc. }
    eexists (_ :: tables). split.
    + cbn [map_index]. constructor; [|exact HF]. cbn [fst snd]. split; [exact E|].
      rewrite length_map, length_seq, Hc. unfold of_nat. f_equal. lia.
    + cbn [concat]. rewrite List.length_app, length_map, length_seq.
      cbn [List.length]. lia.
Qed.

Lemma plan_length (lower : string) :
  (List.length (objects (plan_of_lower lower)) <= 4)%nat.
Proof.
  unfold plan_of_lower, push.
  destruct (truthy (spheres_of lower)); destruct (truthy (boxes_of lower));
  destruct (truthy (torus_of lower)); destruct (truthy (icosa_of lower));
  cbn [List.length app Nat.eqb objects]; lia.
Qed.

(** X11: the scene of a compiled plan.  For every input text, every
    [FloatingObjects] of [SharedScene] gets a table with exactly [count]
    instances, and the whole scene has at most 800 instances. *)
Theorem scene_instances_bounded (Math_sin : number -> number) (input : string) :
  exists tables,
    Forall2 (fun p items =>
               instances Math_sin (fst p) (snd p) = Some items /\
               count (fst p) = of_nat (List.length items))
            (SharedScene_objects (planSceneFromTextMock input)) tables /\
    (List.length (concat tables) <= 800)%nat.
Proof.
  assert (Forall (fun o => exists z, (1 <= z <= 200)%Z /\ count o = of_Z z)
                 (objects (planSceneFromTextMock input))) as H.
  { apply Forall_forall. intros o Ho. apply plan_entries in Ho.
    now apply origin_count in Ho. }
  destruct (tables_of_whole_counts Math_sin _ 0 H) as (tables & HF & HL).
  exists tables. split; [exact HF|].
  pose proof (plan_length (toLowerCase input)) as P.
  fold (planSceneFromTextMock input) in P. lia.
Qed.







(* ================================================================== *)
(** ** Further properties of the frame callback                       *)
(* ================================================================== *)

Section MoreFrames.

Variable Math_sin : number -> number.
Variable Math_cos : number -> number.
Variable spec : ObjectSpec.
Variable insts : list Instance.t.

(** What the frames of a history do to child [i], one after the other. *)
Definition step_child (i : nat) (obj : Object3D) (f : Frame) : Object3D :=
  update_child Math_sin Math_cos spec insts (now_at f i) (delta f) i obj.


Lemma forEach_from_same (f : nat -> Object3D -> Object3D)
  (children : list Object3D) (a : nat) :
  (forall i obj, f i obj = obj) -> forEach_from f a children = children.
Proof.
  intros Hf. revert a. induction children as [|obj rest IH]; intros a; simpl;
    [reflexivity|]. now rewrite Hf, IH.
Qed.

Lemma child_onFrame_map (group : option (list Object3D)) (f : Frame) (i : nat) :
  child (onFrame Math_sin Math_cos spec insts group f) i =
  option_map (fun obj => step_child i obj f) (child group i).
Proof.
  destruct group as [children|]; simpl; [|reflexivity].
  now rewrite forEach_from_nth.
Qed.

Lemma child_run_fold (frames : list Frame) (group : option (list Object3D))
  (i : nat) :
  child (run Math_sin Math_cos spec insts group frames) i =
  option_map (fun obj => fold_left (step_child i) frames obj) (child group i).
Proof.
  revert group. induction frames as [|f frames IH]; intros group.
  - simpl. now destruct (child group i).
  - change (run Math_sin Math_cos spec insts group (f :: frames))
      with (run Math_sin Math_cos spec insts
              (onFrame Math_sin Math_cos spec insts group f) frames).
    rewrite IH, child_onFrame_map. now destruct (child group i).
Qed.

Lemma update_child_still (now dt : number) (i : nat) (obj : Object3D) :
  motion spec <> Some orbit -> motion spec <> Some float ->
  update_child Math_sin Math_cos spec insts now dt i obj = obj.
Proof.
  intros H1 H2. unfold update_child.
  destruct (nth_error insts i); [|reflexivity].
  destruct (motion spec) as [[| |]|]; congruence.
Qed.

Lemma update_child_missing (now dt : number) (i : nat) (obj : Object3D) :
  nth_error insts i = None ->
  update_child Math_sin Math_cos spec insts now dt i obj = obj.
Proof. intros H. unfold update_child. now rewrite H. Qed.

Lemma fold_left_same (i : nat) (frames : list Frame) (obj : Object3D) :
  (forall o f, step_child i o f = o) ->
  fold_left (step_child i) frames obj = obj.
Proof.
  intros H. induction frames as [|f frames IH]; simpl; [reflexivity|].
  now rewrite H.
Qed.


Lemma float_fold (i : nat) (it : Instance.t) (frames : list Frame)
  (obj : Object3D) :
  motion spec = Some float -> nth_error insts i = Some it ->
  Vector3.x (position (fold_left (step_child i) frames obj)) =
    Vector3.x (position obj) /\
  Vector3.z (position (fold_left (step_child i) frames obj)) =
    Vector3.z (position obj) /\
  rotation (fold_left (step_child i) frames obj) =
  {| Vector3.x := fold_left (fun acc f => add acc (mul (delta f) (Num 0.3)))
                            frames (Vector3.x (rotation obj));
     Vector3.y := fold_left (fun acc f => add acc (mul (delta f) (Num 0.2)))
                            frames (Vector3.y (rotation obj));
     Vector3.z := Vector3.z (rotation obj) |}.
Proof.
  intros Hm Hit. revert obj. induction frames as [|f frames IH]; intros obj.
  - simpl. now destruct (rotation obj).
  - cbn [fold_left]. destruct (IH (step_child i obj f)) as (Hx & Hz & Hr).
    rewrite Hx, Hz, Hr. unfold step_child, update_child.
    rewrite Hit, Hm. cbn [position rotation Vector3.x Vector3.y Vector3.z].
    auto.
Qed.

End MoreFrames.


(** X15: when the motion of the spec is none, or absent, no history of
    frames changes anything in the group. *)
Theorem run_without_motion (Math_sin Math_cos : number -> number)
  (spec : ObjectSpec) (insts : list Instance.t)
  (group : option (list Object3D)) (frames : list Frame) :
  motion spec <> Some orbit -> motion spec <> Some float ->
  run Math_sin Math_cos spec insts group frames = group.
Proof.
  intros H1 H2. induction frames as [|f frames IH]; [reflexivity|].
  change (run Math_sin Math_cos spec insts group (f :: frames))
    with (run Math_sin Math_cos spec insts
            (onFrame Math_sin Math_cos spec insts group f) frames).
  assert (onFrame Math_sin Math_cos spec insts group f = group) as ->; [|exact IH].
  destruct group as [children|]; [|reflexivity]. simpl. f_equal.
  apply forEach_from_same. intros i obj. now apply update_child_still.
Qed.

(** X15 on the sphere entry of "spheres", whose motion is none. *)
Lemma run_without_motion_witness :
  motion (sphere_spec "spheres" (Num 5)) = Some none /\
  run sin_poly cos_poly (sphere_spec "spheres" (Num 5)) [one_instance]
      (Some [origin_object]) [frame_at 16 0.016; frame_at 33 0.017] =
  Some [origin_object].
Proof.
  split; [reflexivity|].
  apply run_without_motion; discriminate.
Defined.

(** X16: a child for which the table has no instance is never changed,
    whatever the motion and the history of frames. *)
Theorem run_skips_missing_instance (Math_sin Math_cos : number -> number)
  (spec : ObjectSpec) (insts : list Instance.t)
  (group : option (list Object3D)) (frames : list Frame) (i : nat) :
  nth_error insts i = None ->
  child (run Math_sin Math_cos spec insts group frames) i = child group i.
Proof.
  intros H. rewrite child_run_fold.
  destruct (child group i) as [obj|]; [|reflexivity]. simpl. f_equal.
  apply fold_left_same. intros o f. unfold step_child.
  now apply update_child_missing.
Qed.

(** X16 on the second child of a group whose table has one instance. *)
Lemma run_skips_missing_instance_witness :
  nth_error [one_instance] 1 = None /\
  child (run sin_poly cos_poly (spec_of (Num 1) None) [one_instance]
           (Some [origin_object; origin_object])
           [frame_at 16 0.016; frame_at 33 0.017]) 1 =
  Some origin_object.
Proof.
  split; [reflexivity|].
  exact (run_skips_missing_instance sin_poly cos_poly (spec_of (Num 1) None)
           [one_instance] (Some [origin_object; origin_object])
           [frame_at 16 0.016; frame_at 33 0.017] 1 eq_refl).
Defined.




(** X18: under the float motion a child keeps its x and z through every
    history of frames; after a frame that reads the clock at T its height
    is baseHeight + sin(T * 0.001 + i) * 0.1, whatever the frames before;
    its rotations about x and about y add up 0.3 and 0.2 times the frame
    deltas. *)
Theorem float_motion (Math_sin Math_cos : number -> number)
  (spec : ObjectSpec) (insts : list Instance.t)
  (group : option (list Object3D)) (history : list Frame) (last : Frame)
  (i : nat) (it : Instance.t) (obj : Object3D) :
  motion spec = Some float -> nth_error insts i = Some it ->
  child group i = Some obj ->
  exists obj',
    child (run Math_sin Math_cos spec insts group (history ++ [last])) i
      = Some obj' /\
    position obj' =
      {| Vector3.x := Vector3.x (position obj);
         Vector3.y := add (Instance.y it)
                          (mul (Math_sin (add (mul (now_at last i) (Num 0.001))
                                              (of_nat i)))
                               (Num 0.1));
         Vector3.z := Vector3.z (position obj) |} /\
    rotation obj' =
      {| Vector3.x := fold_left (fun acc f => add acc (mul (delta f) (Num 0.3)))
                                (history ++ [last]) (Vector3.x (rotation obj));
         Vector3.y := fold_left (fun acc f => add acc (mul (delta f) (Num 0.2)))
                                (history ++ [last]) (Vector3.y (rotation obj));
         Vector3.z := Vector3.z (rotation obj) |}.
Proof.
  intros Hm Hit Hc. rewrite child_run_fold, Hc. cbn [option_map].
  eexists. split; [reflexivity|].
  destruct (float_fold Math_sin Math_cos spec insts i it (history ++ [last]) obj
              Hm Hit) as (_ & _ & R).
  split; [|exact R].
  rewrite fold_left_app. cbn [fold_left].
  destruct (float_fold Math_sin Math_cos spec insts i it history obj Hm Hit)
    as (Hx & Hz & _).
  unfold step_child at 1, update_child. rewrite Hit, Hm. cbn [position].
  now rewrite Hx, Hz.
Qed.

(** X18 on the box entry of "boxes floating", two frames. *)
Lemma float_motion_witness :
  motion (box_spec "boxes floating" (Num 10)) = Some float /\
  exists obj',
    child (run sin_poly cos_poly (box_spec "boxes floating" (Num 10))
             [one_instance] (Some [origin_object])
             ([frame_at 16 0.016] ++ [frame_at 1000 0.017])) 0 = Some obj' /\
    Vector3.x (position obj') = Num 0 /\ Vector3.z (position obj') = Num 0.
Proof.
  split; [reflexivity|].
  destruct (float_motion sin_poly cos_poly (box_spec "boxes floating" (Num 10))
              [one_instance] (Some [origin_object])
              [frame_at 16 0.016] (frame_at 1000 0.017) 0 one_instance
              origin_object eq_refl eq_refl eq_refl)
    as (obj' & Hc & Hp & _).
  exists obj'. split; [exact Hc|]. rewrite Hp. split; reflexivity.
Defined.

(* ================================================================== *)
(** ** Further properties of what is rendered                         *)
(* ================================================================== *)



Lemma ShapeGeometry_dimensions (sh : Shape) (s : Q) :
  (0.02 <= s)%Q -> (s <= 0.4)%Q ->
  Forall (between 0.005 0.4) (dimensions (ShapeGeometry sh (Num s))).
Proof.
  intros H1 H2. destruct sh; cbn [ShapeGeometry dimensions mul];
    repeat constructor; unfold between; lra.
Qed.

(** X20: the geometry of an entry whose fields are in the ranges of the
    clamp pass has every length between 0.005 and 0.4; so has the geometry
    of every entry the clamp pass returns, unless the entry held a [NaN]. *)
Theorem mesh_geometry_bounded (o : ObjectSpec) :
  (in_ranges o ->
   Forall (between 0.005 0.4)
          (dimensions (mesh_geometry (FloatingObjects_mesh o)))) /\
  (NaN_free o ->
   Forall (between 0.005 0.4)
          (dimensions (mesh_geometry (FloatingObjects_mesh (clamp_object o))))).
Proof.
  assert (forall o', in_ranges o' ->
            Forall (between 0.005 0.4)
                   (dimensions (mesh_geometry (FloatingObjects_mesh o')))) as H.
  { intros o' (_ & Hs & _). unfold FloatingObjects_mesh; cbn [mesh_geometry].
    destruct (size o') as [[|s]|]; try destruct Hs. cbn [nullish].
    now apply ShapeGeometry_dimensions. }
  split; [apply H|]. intros Hn. apply H. now apply clamp_object_in_ranges.
Qed.

(** X20 on the wild entry, after the clamp pass. *)
Lemma mesh_geometry_bounded_witness :
  Forall (between 0.005 0.4)
         (dimensions (mesh_geometry (FloatingObjects_mesh (clamp_object wild_spec)))).
Proof.
  apply (proj2 (mesh_geometry_bounded wild_spec)).
  repeat split; discriminate.
Defined.

(** X21: the mesh of an entry of a compiled plan takes its color, metalness
    and roughness from the entry, never from the defaults of the renderer;
    its material is the standard one, or the toon one for a box, and its
    metalness and roughness lie in [0, 1]. *)
Theorem compiled_mesh_material (input : string) (o : ObjectSpec) :
  In o (objects (planSceneFromTextMock input)) ->
  exists props,
    (mesh_material (FloatingObjects_mesh o) = meshStandardMaterial props \/
     (mesh_material (FloatingObjects_mesh o) = meshToonMaterial props /\
      shape o = box)) /\
    color o = Some (props_color props) /\
    metalness o = Some (props_metalness props) /\
    roughness o = Some (props_roughness props) /\
    between 0 1 (props_metalness props) /\
    between 0 1 (props_roughness props).
Proof.
  intros H. apply plan_entries in H. exists (commonMatProps o).
  destruct H as [T E|T E|T E|T E|_ _ _ _ E]; subst o;
    unfold FloatingObjects_mesh, commonMatProps, sphere_spec, box_spec,
      torus_spec, icosa_spec, default_spec;
    cbn [mesh_material color material metalness roughness shape nullish
         props_color props_metalness props_roughness];
    repeat match goal with
           | |- context [if ?b then _ else _] => destruct b
           end;
    cbn [materialFrom];
    (split; [auto|]); repeat (split; [reflexivity|]);
    unfold between; split; split; apply Qle_bool_iff; reflexivity.
Qed.

(** X21 on the torus entry of "gold torus". *)
Lemma compiled_mesh_material_witness :
  exists props,
    mesh_material (FloatingObjects_mesh (torus_spec "gold torus" (Num 3))) =
      meshStandardMaterial props /\
    props_color props = "#d4af37"%string /\
    between 0 1 (props_metalness props).
Proof.
  destruct (compiled_mesh_material "gold torus" (torus_spec "gold torus" (Num 3)))
    as (props & [Hm|[Hm Hs]] & Hc & _ & _ & Hb & _).
  - left. reflexivity.
  - exists props. split; [exact Hm|]. split; [|exact Hb].
    inversion Hc. reflexivity.
  - discriminate Hs.
Defined.

Lemma map_index_nth {A B : Type} (f : A -> nat -> B) (xs : list A) (a i : nat) :
  nth_error (map_index f a xs) i =
  option_map (fun x => f x (a + i)%nat) (nth_error xs i).
Proof.
  revert a i. induction xs as [|x xs IH]; intros a i.
  - now destruct i.
  - destruct i as [|i]; simpl.
    + now rewrite Nat.add_0_r.
    + rewrite IH. now replace (S a + i)%nat with (a + S i)%nat by lia.
Qed.

Lemma map_index_fst {A B : Type} (g : nat -> B) (xs : list A) (a : nat) :
  map fst (map_index (fun x i => (x, g i)) a xs) = xs.
Proof.
  revert a. induction xs as [|x xs IH]; intros a; simpl; [reflexivity|].
  now rewrite IH.
Qed.

(** X22: [SharedScene] renders the entries of the plan in their order, the
    entry at index i with the seed i * 13 + 7, and no two entries get the
    same seed. *)
Theorem SharedScene_seeds (plan : ScenePlan) :
  map fst (SharedScene_objects plan) = objects plan /\
  (forall i p, nth_error (SharedScene_objects plan) i = Some p ->
     snd p = of_nat (i * 13 + 7)) /\
  (forall i j p q,
     nth_error (SharedScene_objects plan) i = Some p ->
     nth_error (SharedScene_objects plan) j = Some q ->
     num_eq (snd p) (snd q) -> i = j).
Proof.
  unfold SharedScene_objects.
  assert (forall i p,
            nth_error (map_index (fun spec i => (spec, SharedScene_seed i)) 0
                         (objects plan)) i = Some p ->
            snd p = of_nat (i * 13 + 7)) as Hs.
  { intros i p H. rewrite map_index_nth in H.
    destruct (nth_error (objects plan) i); [|discriminate].
    inversion H. reflexivity. }
  split; [|split; [exact Hs|]].
  - apply map_index_fst.
  - intros i j p q Hp Hq E.
    rewrite (Hs i p Hp), (Hs j q Hq) in E.
    unfold num_eq, of_nat, of_Z, Qeq in E. simpl in E. lia.
Qed.

(** X22 on the initial plan: its second and third entries. *)
Lemma SharedScene_seeds_witness :
  exists p q,
    nth_error (SharedScene_objects App_plan) 1 = Some p /\
    nth_error (SharedScene_objects App_plan) 2 = Some q /\
    snd p = Num 20 /\ snd q = Num 33.
Proof.
  destruct (nth_error (SharedScene_objects App_plan) 1) as [p|] eqn:Ep;
    [|vm_compute in Ep; discriminate Ep].
  destruct (nth_error (SharedScene_objects App_plan) 2) as [q|] eqn:Eq;
    [|vm_compute in Eq; discriminate Eq].
  exists p, q. split; [reflexivity|]. split; [reflexivity|].
  destruct (SharedScene_seeds App_plan) as (_ & Hs & _).
  split; [exact (Hs 1%nat p Ep) | exact (Hs 2%nat q Eq)].
Defined.
